(** * TerraDraw interaction core: drawing modes over the feature store

    A shallow embedding of the circle and point drawing modes
    (src/modes/circle.mode.ts, src/modes/point/point.mode.ts) together with
    the collaborators they call: the mode base class, the feature store and
    the geometry kernel.  The collaborators and the select mode are not part
    of the sources at hand; they are modelled from the specification and
    from what the test-suites of the repository pin down, and every such
    definition says so in its comment. *)

From Stdlib Require Import ZArith QArith Qabs Qminmax List String Bool Lia.
Import ListNotations.

Open Scope string_scope.
Open Scope list_scope.
Open Scope Z_scope.

(* ================================================================== *)
(** ** Data model *)
(* ================================================================== *)

(** A GeoJSON [Position]: [[lng, lat]]. JavaScript numbers are modelled by
    exact rationals; the modes never compute on them, they only hand them
    to the geometry kernel and to the store. *)
Definition Position := (Q * Q)%type.

Inductive Geometry :=
| Point (coordinates : Position)
| LineString (coordinates : list Position)
| Polygon (coordinates : list (list Position)).

(** Feature ids are opaque and unique within a store. *)
Definition FeatureId := nat.

(** Values found in the free-form [properties] mapping of a feature. *)
Inductive JSValue :=
| JStr (s : string)
| JBool (b : bool)
| JNum (n : Z)
| JId (i : FeatureId).

Definition Properties := list (string * JSValue).

Fixpoint getProp (k : string) (ps : Properties) : option JSValue :=
  match ps with
  | [] => None
  | (k', v) :: rest => if String.eqb k k' then Some v else getProp k rest
  end.

Fixpoint setProp (k : string) (v : JSValue) (ps : Properties) : Properties :=
  match ps with
  | [] => [(k, v)]
  | (k', v') :: rest =>
      if String.eqb k k' then (k, v) :: rest else (k', v') :: setProp k v rest
  end.

Record Feature := mkFeature {
  fid : FeatureId;
  geometry : Geometry;
  properties : Properties
}.

Inductive Button := LeftButton | RightButton | MiddleButton.

(** The normalised pointer event handed to the modes by the adapter. *)
Record TerraDrawMouseEvent := mkMouseEvent {
  lng : Q;
  lat : Q;
  containerX : Q;
  containerY : Q;
  button : Button;
  heldKeys : list string
}.

Record TerraDrawKeyboardEvent := mkKeyboardEvent {
  key : string
}.

(** The geometry kernel ([../geometry/*]) is imported by the modes but is
    not among the sources; it is taken as an interface.  [circle c r]
    stands for [circle({center: c, radiusKilometers: r}).geometry].
    [validGeometry] is the store's check of a geometry on create and
    update; it is left open as well, since the test-suite stores rings
    that the invariants of §3 would reject (an unclosed ring in "returns
    if different feature than selected is clicked on"). *)
Class GeometryKernel := {
  haversineDistanceKilometers : Position -> Position -> Q;
  circle : Position -> Q -> Geometry;
  midpointGreatCircle : Position -> Position -> Position;
  pointInPolygon : Position -> list Position -> bool;
  pixelDistance : Q * Q -> Q * Q -> Q;
  pointToLineDistancePx : Q * Q -> Q * Q -> Q * Q -> Q;
  selfIntersects : list Position -> bool;
  validGeometry : Geometry -> bool
}.

(* ================================================================== *)
(** ** Exceptions and the state monad of a handler call *)
(* ================================================================== *)

(** What a call can throw.  The first six are the error kinds of the
    specification; [TypeError] is what the JavaScript runtime throws when a
    property of [undefined] is read. *)
Inductive Error :=
| NotRegistered
| AlreadyRegistered
| IllegalStateWrite
| InvalidGeometry
| UnknownId
| InvalidStyles
| TypeError.

Inductive Outcome (A : Type) :=
| Ok (a : A)
| Throw (e : Error).
Arguments Ok {A} a.
Arguments Throw {A} e.

(** A computation over a mutable state [S]: mutations made before a throw
    stay in place, as they do in JavaScript. *)
Definition M (S A : Type) := S -> Outcome A * S.

Definition ret {S A} (a : A) : M S A := fun s => (Ok a, s).

Definition bind {S A B} (m : M S A) (k : A -> M S B) : M S B :=
  fun s =>
    match m s with
    | (Ok a, s') => k a s'
    | (Throw e, s') => (Throw e, s')
    end.

Definition throw {S A} (e : Error) : M S A := fun s => (Throw e, s).

(** [try { m } catch (error) { h error }] *)
Definition tryCatch {S A} (m : M S A) (h : Error -> M S A) : M S A :=
  fun s =>
    match m s with
    | (Ok a, s') => (Ok a, s')
    | (Throw e, s') => h e s'
    end.

Declare Scope monad_scope.
Delimit Scope monad_scope with monad.
Notation "x <- m ;; k" := (bind m (fun x => k))
  (at level 61, m at next level, right associativity) : monad_scope.
Notation "m ;; k" := (bind m (fun _ => k))
  (at level 61, right associativity) : monad_scope.
Open Scope monad_scope.

(* ================================================================== *)
(** ** The world a mode is wired to by [register] *)
(* ================================================================== *)

Inductive ChangeKind := ChCreate | ChUpdate | ChDelete.

(** A recorded call of a store method, as [jest.spyOn(store, ...)] sees it.
    Ids are JavaScript values and may be [undefined] ([None]). *)
Inductive StoreCall :=
| CallCreate (entries : list (Geometry * Properties))
| CallUpdateGeometry (updates : list (option FeatureId * Geometry))
| CallUpdateProperty (updates : list (FeatureId * string * JSValue))
| CallDelete (ids : list (option FeatureId)).

(** Calls of the mode callbacks other than [onChange]. *)
Inductive Callback :=
| OnSelect (id : FeatureId)
| OnDeselect (id : FeatureId)
| OnFinish (id : FeatureId).

(** The store object and the mock callbacks of the mode configuration.
    The store is shared between the mode and its observer, so it lives
    here and not inside the mode. *)
Record World := mkWorld {
  features : list Feature;
  nextId : FeatureId;
  onChange : list (list FeatureId * ChangeKind);
  callbacks : list Callback;
  cursor : string;
  spied : list StoreCall
}.

Definition emptyWorld : World :=
  mkWorld [] 0%nat [] [] "unset" [].

Definition setFeatures (fs : list Feature) (w : World) : World :=
  mkWorld fs (nextId w) (onChange w) (callbacks w) (cursor w) (spied w).

Definition emitChange (ids : list FeatureId) (k : ChangeKind) (w : World) : World :=
  mkWorld (features w) (nextId w) (onChange w ++ [(ids, k)]) (callbacks w)
          (cursor w) (spied w).

Definition emitCallback (c : Callback) (w : World) : World :=
  mkWorld (features w) (nextId w) (onChange w) (callbacks w ++ [c])
          (cursor w) (spied w).

Definition spy (c : StoreCall) (w : World) : World :=
  mkWorld (features w) (nextId w) (onChange w) (callbacks w) (cursor w)
          (spied w ++ [c]).

Definition writeCursor (c : string) (w : World) : World :=
  mkWorld (features w) (nextId w) (onChange w) (callbacks w) c (spied w).

(** A small exact kernel on which the scenarios of the test-suites can be
    run: the plane stands in for the sphere (taxicab lengths, a diamond for
    the circle, the arithmetic midpoint), point-in-polygon is the even-odd
    crossing rule, and every geometry is accepted by the store. *)
Module PlanarKernel.

Definition dist1 (a b : Q * Q) : Q :=
  (Qabs (fst a - fst b) + Qabs (snd a - snd b))%Q.

Definition diamond (c : Position) (r : Q) : Geometry :=
  Polygon [[ ((fst c + r)%Q, snd c); (fst c, (snd c + r)%Q);
             ((fst c - r)%Q, snd c); (fst c, (snd c - r)%Q);
             ((fst c + r)%Q, snd c) ]].

Definition mid (a b : Position) : Position :=
  (((fst a + fst b) / 2)%Q, ((snd a + snd b) / 2)%Q).

Definition Qltb (a b : Q) : bool := negb (Qle_bool b a).

(** One edge [(pi, pj)] of the ring crosses the ray from [p]. *)
Definition crosses (p pi pj : Position) : bool :=
  let '(x, y) := p in
  let '(xi, yi) := pi in
  let '(xj, yj) := pj in
  negb (Bool.eqb (Qltb y yi) (Qltb y yj))
  && Qltb x ((xj - xi) * (y - yi) / (yj - yi) + xi)%Q.

Fixpoint inside (p : Position) (prev : Position) (ring : list Position) : bool :=
  match ring with
  | [] => false
  | c :: rest => xorb (crosses p c prev) (inside p c rest)
  end.

Definition inRing (p : Position) (ring : list Position) : bool :=
  match ring with
  | [] => false
  | _ => inside p (last ring (0%Q, 0%Q)) ring
  end.

#[export] Instance kernel : GeometryKernel := {|
  haversineDistanceKilometers := dist1;
  circle := diamond;
  midpointGreatCircle := mid;
  pointInPolygon := inRing;
  pixelDistance := dist1;
  pointToLineDistancePx := fun p a b => Qmin (dist1 p a) (dist1 p b);
  selfIntersects := fun _ => false;
  validGeometry := fun _ => true
|}.

(** The projection of the mock configuration: forty pixels per degree. *)
Definition project (c : Position) : Q * Q :=
  ((fst c * 40)%Q, (snd c * 40)%Q).

End PlanarKernel.

Section Store.

Context {kernel : GeometryKernel}.

(* ================================================================== *)
(** ** Feature store *)
(* ================================================================== *)

(** Modelled from the spec: the store class ([../store/store]) is missing;
    §3 invariant 1, "every id in the store maps to exactly one feature":
    the feature an id stands for. *)
Definition lookupFeature (id : FeatureId) (fs : list Feature) : option Feature :=
  find (fun f => Nat.eqb (fid f) id) fs.

(** Modelled from the spec: §4.B [has(id)]; [undefined] is never a key. *)
Definition has (id : option FeatureId) (fs : list Feature) : bool :=
  match id with
  | Some i => match lookupFeature i fs with Some _ => true | None => false end
  | None => false
  end.

(** Modelled from the spec: §4.B [copyAll() -> Feature[]]. *)
Definition copyAll (w : World) : list Feature := features w.

Fixpoint defined (ids : list (option FeatureId)) : list FeatureId :=
  match ids with
  | [] => []
  | Some i :: rest => i :: defined rest
  | None :: rest => defined rest
  end.

Fixpoint buildFeatures (from : FeatureId) (entries : list (Geometry * Properties))
  : list Feature :=
  match entries with
  | [] => []
  | (g, ps) :: rest => mkFeature from g ps :: buildFeatures (S from) rest
  end.

(** Modelled from the spec: the store class ([../store/store]) is missing.
    §4.B: "create(entries[]) -> id[]: assigns ids (collision-free within the
    store), validates geometry against §3 invariants, emits {created}.
    Fails with InvalidGeometry if any entry violates invariants."  Ids come
    from a counter; the validity predicate is the kernel's. *)
Definition create (entries : list (Geometry * Properties)) : M World (list FeatureId) :=
  fun w0 =>
    let w := spy (CallCreate entries) w0 in
    if forallb (fun e => validGeometry (fst e)) entries then
      let fresh := buildFeatures (nextId w) entries in
      let ids := map fid fresh in
      (Ok ids,
       emitChange ids ChCreate
         (mkWorld (features w ++ fresh) (nextId w + List.length entries)%nat
                  (onChange w) (callbacks w) (cursor w) (spied w)))
    else (Throw InvalidGeometry, w).

Definition replaceGeometry (id : FeatureId) (g : Geometry) (fs : list Feature)
  : list Feature :=
  map (fun f => if Nat.eqb (fid f) id then mkFeature (fid f) g (properties f) else f) fs.

(** Modelled from the spec: §4.B "updateGeometry(updates[]): replaces
    geometry for given ids; re-validates; emits {updated}".  An id that is
    not in the store is refused with UnknownId, as for the other
    mutations. *)
Definition updateGeometry (updates : list (option FeatureId * Geometry)) : M World unit :=
  fun w0 =>
    let w := spy (CallUpdateGeometry updates) w0 in
    if negb (forallb (fun u => has (fst u) (features w)) updates) then
      (Throw UnknownId, w)
    else if negb (forallb (fun u => validGeometry (snd u)) updates) then
      (Throw InvalidGeometry, w)
    else
      let fs :=
        fold_left
          (fun acc u =>
             match fst u with
             | Some i => replaceGeometry i (snd u) acc
             | None => acc
             end)
          updates (features w) in
      (Ok tt, emitChange (defined (map fst updates)) ChUpdate (setFeatures fs w)).

Definition mergeProperty (id : FeatureId) (k : string) (v : JSValue)
  (fs : list Feature) : list Feature :=
  map (fun f =>
         if Nat.eqb (fid f) id
         then mkFeature (fid f) (geometry f) (setProp k v (properties f))
         else f) fs.

(** Modelled from the spec: §4.B "updateProperty(updates[]): merges
    properties; emits {updated}"; §7 names UnknownId for an id that is not
    in the store. *)
Definition updateProperty (updates : list (FeatureId * string * JSValue)) : M World unit :=
  fun w0 =>
    let w := spy (CallUpdateProperty updates) w0 in
    if negb (forallb (fun u => has (Some (fst (fst u))) (features w)) updates) then
      (Throw UnknownId, w)
    else
      let fs :=
        fold_left (fun acc u => mergeProperty (fst (fst u)) (snd (fst u)) (snd u) acc)
                  updates (features w) in
      (Ok tt, emitChange (map (fun u => fst (fst u)) updates) ChUpdate (setFeatures fs w)).

Definition removeFeature (id : FeatureId) (fs : list Feature) : list Feature :=
  filter (fun f => negb (Nat.eqb (fid f) id)) fs.

(** Modelled from the spec: §4.B "delete(ids[]): fails with UnknownId if
    any id missing; emits {deleted}". *)
Definition delete (ids : list (option FeatureId)) : M World unit :=
  fun w0 =>
    let w := spy (CallDelete ids) w0 in
    if negb (forallb (fun i => has i (features w)) ids) then
      (Throw UnknownId, w)
    else
      let fs := fold_left (fun acc i => removeFeature i acc) (defined ids) (features w) in
      (Ok tt, emitChange (defined ids) ChDelete (setFeatures fs w)).

End Store.

(* ================================================================== *)
(** ** Mode base class *)
(* ================================================================== *)

(** Modelled from the spec: the base class ([./base.mode]) is missing.
    The part of a mode object that [TerraDrawBaseDrawMode] owns: the
    lifecycle state of §4.C (a string) and whether [this.store] has been
    installed by [register]. *)
Record BaseMode := mkBase {
  _state : string;
  storeDefined : bool
}.

Definition newBase : BaseMode := mkBase "unregistered" false.

(** Modelled from the spec: the base class ([./base.mode]) is missing.
    §4.C "register(config): single-use; fails AlreadyRegistered on
    repeat"; the config supplies the store handle. *)
Definition baseRegister : M BaseMode unit :=
  fun b =>
    if String.eqb (_state b) "unregistered"
    then (Ok tt, mkBase "registered" true)
    else (Throw AlreadyRegistered, b).

(** Modelled from the spec: §4.C "start(), stop(): require prior register;
    otherwise fail NotRegistered"; [setStarted] is the base-class half of
    [start]. *)
Definition setStarted : M BaseMode unit :=
  fun b =>
    if String.eqb (_state b) "unregistered"
    then (Throw NotRegistered, b)
    else (Ok tt, mkBase "started" (storeDefined b)).

(** Modelled from the spec: as [setStarted], for [stop]. *)
Definition setStopped : M BaseMode unit :=
  fun b =>
    if String.eqb (_state b) "unregistered"
    then (Throw NotRegistered, b)
    else (Ok tt, mkBase "stopped" (storeDefined b)).

(** Modelled from the spec: §4.C "state: read-only ... Direct assignment
    fails with IllegalStateWrite". *)
Definition writeState (s : string) : M BaseMode unit :=
  fun b => (Throw IllegalStateWrite, b).

(** A mode object paired with the world it acts on. *)
Definition Sys (Mode : Type) := (Mode * World)%type.

Section ModeOps.

Context {Mode : Type}.
Variable getBase : Mode -> BaseMode.
Variable setBase : BaseMode -> Mode -> Mode.

(** Run a base-class method on the [base] part of the mode. *)
Definition onBase {A} (op : M BaseMode A) : M (Sys Mode) A :=
  fun s =>
    let '(r, b) := op (getBase (fst s)) in
    (r, (setBase b (fst s), snd s)).

(** [this.store.method(...)]: reading a method of an undefined store is
    a runtime [TypeError]; nothing of the world is touched then. *)
Definition onStore {A} (op : M World A) : M (Sys Mode) A :=
  fun s =>
    if storeDefined (getBase (fst s)) then
      let '(r, w) := op (snd s) in (r, (fst s, w))
    else (Throw TypeError, s).

(** [this.setCursor(name)]: a hook of the config, present once
    registered. *)
Definition setCursor (name : string) : M (Sys Mode) unit :=
  fun s =>
    if storeDefined (getBase (fst s))
    then (Ok tt, (fst s, writeCursor name (snd s)))
    else (Throw TypeError, s).

Definition update (f : Mode -> Mode) : M (Sys Mode) unit :=
  fun s => (Ok tt, (f (fst s), snd s)).

Definition this {A} (f : Mode -> A) : M (Sys Mode) A :=
  fun s => (Ok (f (fst s)), s).

(** Read access to the store contents (copy-returning accessors). *)
Definition world : M (Sys Mode) World :=
  fun s => (Ok (snd s), s).

End ModeOps.

(* ================================================================== *)
(** ** Circle mode (src/modes/circle.mode.ts) *)
(* ================================================================== *)

Module CircleMode.

Record TerraDrawCircleMode := mk {
  base : BaseMode;
  center : option Position;
  clickCount : Z;
  currentCircleId : option FeatureId;
  keyEvents_cancel : string
}.

Section WithKernel.

Context {kernel : GeometryKernel}.

Definition mode : string := "circle".

(** [new TerraDrawCircleMode(options)] *)
Definition new (cancel : option string) : TerraDrawCircleMode :=
  mk newBase None 0 None
     (match cancel with Some k => k | None => "Escape" end).

Definition setBase (b : BaseMode) (m : TerraDrawCircleMode) :=
  mk b (center m) (clickCount m) (currentCircleId m) (keyEvents_cancel m).
Definition setCenter (c : option Position) (m : TerraDrawCircleMode) :=
  mk (base m) c (clickCount m) (currentCircleId m) (keyEvents_cancel m).
Definition setClickCount (n : Z) (m : TerraDrawCircleMode) :=
  mk (base m) (center m) n (currentCircleId m) (keyEvents_cancel m).
Definition setCurrentCircleId (i : option FeatureId) (m : TerraDrawCircleMode) :=
  mk (base m) (center m) (clickCount m) i (keyEvents_cancel m).

Definition St := Sys TerraDrawCircleMode.

Definition register : M St unit := onBase base setBase baseRegister.

Definition cleanUp : M St unit :=
  tryCatch
    (id <- this currentCircleId ;;
     onStore base (delete [id]))
    (fun _ => ret tt) ;;
  update (setCenter None) ;;
  update (setCurrentCircleId None) ;;
  update (setClickCount 0).

Definition start : M St unit :=
  onBase base setBase setStarted ;;
  setCursor base "crosshair".

Definition stop : M St unit :=
  onBase base setBase setStopped ;;
  setCursor base "unset" ;;
  cleanUp.

Definition onClick (event : TerraDrawMouseEvent) : M St unit :=
  n <- this clickCount ;;
  if n =? 0 then
    update (setCenter (Some (lng event, lat event))) ;;
    let startingCircle := circle (lng event, lat event) (1 # 100000) in
    ids <- onStore base (create [(startingCircle, [("mode", JStr mode)])]) ;;
    update (setCurrentCircleId (hd_error ids)) ;;
    update (fun m => setClickCount (clickCount m + 1) m)
  else
    (* Finish drawing *)
    update (setCenter None) ;;
    update (setCurrentCircleId None) ;;
    update (setClickCount 0).

Definition onMouseMove (event : TerraDrawMouseEvent) : M St unit :=
  n <- this clickCount ;;
  if n =? 1 then
    c <- this center ;;
    match c with
    | None => throw TypeError (* the kernel reads a coordinate of undefined *)
    | Some c =>
        let distanceKm := haversineDistanceKilometers c (lng event, lat event) in
        let updatedCircle := circle c distanceKm in
        id <- this currentCircleId ;;
        onStore base (updateGeometry [(id, updatedCircle)])
    end
  else ret tt.

Definition onKeyPress (event : TerraDrawKeyboardEvent) : M St unit :=
  cancel <- this keyEvents_cancel ;;
  if String.eqb (key event) cancel then cleanUp else ret tt.

Definition onDragStart : M St unit := ret tt.
Definition onDrag : M St unit := ret tt.
Definition onDragEnd : M St unit := ret tt.

(** The public read of [state]. *)
Definition state (m : TerraDrawCircleMode) : string := _state (base m).

(** The calls a client can make on a circle mode object. *)
Inductive Method :=
| Register
| Start
| Stop
| WriteState (s : string)
| OnClick (event : TerraDrawMouseEvent)
| OnMouseMove (event : TerraDrawMouseEvent)
| OnKeyPress (event : TerraDrawKeyboardEvent)
| OnDragStart
| OnDrag
| OnDragEnd
| CleanUp.

Definition invoke (c : Method) : M St unit :=
  match c with
  | Register => register
  | Start => start
  | Stop => stop
  | WriteState s => onBase base setBase (writeState s)
  | OnClick e => onClick e
  | OnMouseMove e => onMouseMove e
  | OnKeyPress e => onKeyPress e
  | OnDragStart => onDragStart
  | OnDrag => onDrag
  | OnDragEnd => onDragEnd
  | CleanUp => cleanUp
  end.

End WithKernel.

End CircleMode.

(* ================================================================== *)
(** ** Point mode (src/modes/point/point.mode.ts) *)
(* ================================================================== *)

Module PointMode.

Record TerraDrawPointMode := mk {
  base : BaseMode
}.

Section WithKernel.

Context {kernel : GeometryKernel}.

Definition mode : string := "point".

Definition new : TerraDrawPointMode := mk newBase.

Definition setBase (b : BaseMode) (m : TerraDrawPointMode) := mk b.

Definition St := Sys TerraDrawPointMode.

Definition register : M St unit := onBase base setBase baseRegister.

Definition cleanUp : M St unit := ret tt.

Definition start : M St unit :=
  onBase base setBase setStarted ;;
  setCursor base "crosshair".

Definition stop : M St unit :=
  onBase base setBase setStopped ;;
  setCursor base "unset" ;;
  cleanUp.

Definition onClick (event : TerraDrawMouseEvent) : M St unit :=
  registered <- this (fun m => storeDefined (base m)) ;;
  if negb registered then
    throw NotRegistered (* "Mode must be registered first" *)
  else
    ids <- onStore base
             (create [(Point (lng event, lat event), [("mode", JStr mode)])]) ;;
    ret tt.

Definition onMouseMove : M St unit := ret tt.
Definition onKeyDown : M St unit := ret tt.
Definition onKeyUp : M St unit := ret tt.
Definition onDragStart : M St unit := ret tt.
Definition onDrag : M St unit := ret tt.
Definition onDragEnd : M St unit := ret tt.

Definition state (m : TerraDrawPointMode) : string := _state (base m).

(** The calls a client can make on a point mode object. *)
Inductive Method :=
| Register
| Start
| Stop
| WriteState (s : string)
| OnClick (event : TerraDrawMouseEvent)
| OnMouseMove
| OnKeyDown
| OnKeyUp
| OnDragStart
| OnDrag
| OnDragEnd
| CleanUp.

Definition invoke (c : Method) : M St unit :=
  match c with
  | Register => register
  | Start => start
  | Stop => stop
  | WriteState s => onBase base setBase (writeState s)
  | OnClick e => onClick e
  | OnMouseMove => onMouseMove
  | OnKeyDown => onKeyDown
  | OnKeyUp => onKeyUp
  | OnDragStart => onDragStart
  | OnDrag => onDrag
  | OnDragEnd => onDragEnd
  | CleanUp => cleanUp
  end.

End WithKernel.

End PointMode.

(* ================================================================== *)
(** ** Select mode *)
(* ================================================================== *)

Module SelectMode.

(** Modelled from the spec: the select mode ([./select.mode]) is missing;
    everything in this module follows §3, §4.C, §4.E and §5 of the
    specification and the select mode's test-suite.  Per-mode selection
    flags (§4.E "Flags"); the resize and rotate entries only matter to
    drags and are left out. *)
Record CoordinateFlags := mkCoordinateFlags {
  draggable : bool;
  deletable : bool;
  midpoints : bool
}.

Record FeatureFlags := mkFeatureFlags {
  featureDraggable : bool;
  coordinates : option CoordinateFlags
}.

Record ModeFlags := mkModeFlags {
  feature : option FeatureFlags
}.

Definition Flags := list (string * ModeFlags).

Inductive StyleValue :=
| SHex (colour : string)
| SNum (n : Q).

(** Modelled from the spec: §4.C [styles], "a mapping of named style keys
    to either a literal value or a function (feature) -> value". *)
Inductive StyleSetting :=
| Literal (v : StyleValue)
| Computed (f : Feature -> StyleValue).

Definition Styles := list (string * StyleSetting).
Definition TerraDrawAdapterStyling := list (string * StyleValue).

(** Modelled from the spec: the state of §4.E (Idle is [selected = None])
    with the transient overlay ids of §9. *)
Record TerraDrawSelectMode := mk {
  base : BaseMode;
  flags : Flags;
  allowManualDeselection : bool;
  pointerDistance : Q;
  styles : Styles;
  selected : option FeatureId;
  selectionPoints : list FeatureId;
  midPoints : list FeatureId
}.

Definition mode : string := "select".

(** Modelled from the spec: [new TerraDrawSelectMode(options)]; §4.E.1
    gives the default of [allowManualDeselection] (true), the glossary
    that of [pointerDistance] (40 px). *)
Definition new (fl : Flags) (allowManual : option bool) (distance : option Q)
  (st : Styles) : TerraDrawSelectMode :=
  mk newBase fl
     (match allowManual with Some b => b | None => true end)
     (match distance with Some d => d | None => 40%Q end)
     st None [] [].

Definition setBase (b : BaseMode) (m : TerraDrawSelectMode) :=
  mk b (flags m) (allowManualDeselection m) (pointerDistance m) (styles m)
     (selected m) (selectionPoints m) (midPoints m).
Definition setSelected (s : option FeatureId) (m : TerraDrawSelectMode) :=
  mk (base m) (flags m) (allowManualDeselection m) (pointerDistance m) (styles m)
     s (selectionPoints m) (midPoints m).
Definition setSelectionPoints (ids : list FeatureId) (m : TerraDrawSelectMode) :=
  mk (base m) (flags m) (allowManualDeselection m) (pointerDistance m) (styles m)
     (selected m) ids (midPoints m).
Definition setMidPoints (ids : list FeatureId) (m : TerraDrawSelectMode) :=
  mk (base m) (flags m) (allowManualDeselection m) (pointerDistance m) (styles m)
     (selected m) (selectionPoints m) ids.

Definition St := Sys TerraDrawSelectMode.

(* ---------------- overlays ---------------- *)

(** Modelled from the spec: §3 "index (its position within the parent's
    coordinate ring)".  The coordinates that get a selection point: every
    vertex of the outer ring but the closing one, as the tests count them;
    every vertex of a line. *)
Definition selectionCoordinates (g : Geometry) : list Position :=
  match g with
  | Polygon (ring :: _) => removelast ring
  | Polygon [] => []
  | LineString cs => cs
  | Point _ => []
  end.

Fixpoint segments (cs : list Position) : list (Position * Position) :=
  match cs with
  | a :: rest =>
      match rest with
      | b :: _ => (a, b) :: segments rest
      | [] => []
      end
  | [] => []
  end.

Definition segmentsOf (g : Geometry) : list (Position * Position) :=
  match g with
  | Polygon (ring :: _) => segments ring
  | Polygon [] => []
  | LineString cs => segments cs
  | Point _ => []
  end.

Fixpoint indexed {A} (from : Z) (l : list A) : list (Z * A) :=
  match l with
  | [] => []
  | a :: rest => (from, a) :: indexed (from + 1) rest
  end.

(** Modelled from the spec: §3 "Ancillary features": mode
    "selection-point" with [parentId] and [index]. *)
Definition selectionPointEntries (parent : FeatureId) (g : Geometry)
  : list (Geometry * Properties) :=
  map (fun ic =>
         (Point (snd ic),
          [("mode", JStr "selection-point"); ("parentId", JId parent);
           ("index", JNum (fst ic))]))
      (indexed 0 (selectionCoordinates g)).

Section WithConfig.

Context {kernel : GeometryKernel}.

(** [project(lng, lat)] of the configuration handed to [register]. *)
Variable project : Position -> Q * Q.

(** The default styling ([getDefaultStyling()], not among the sources). *)
Variable defaultStyling : TerraDrawAdapterStyling.

(** Modelled from the spec: §3 mode "midpoint" with [parentId] and
    [segmentIndex]; §4.A [midpointGreatCircle] gives the coordinate. *)
Definition midPointEntries (parent : FeatureId) (g : Geometry)
  : list (Geometry * Properties) :=
  map (fun ic =>
         (Point (midpointGreatCircle (fst (snd ic)) (snd (snd ic))),
          [("mode", JStr "midpoint"); ("parentId", JId parent);
           ("segmentIndex", JNum (fst ic))]))
      (indexed 0 (segmentsOf g)).

Definition emit (c : Callback) : M St unit :=
  fun s => (Ok tt, (fst s, emitCallback c (snd s))).

(** Modelled from the spec: §4.B [getGeometryCopy(id)]. *)
Definition getGeometryCopy (id : FeatureId) : M St Geometry :=
  onStore base
    (fun w =>
       match lookupFeature id (features w) with
       | Some f => (Ok (geometry f), w)
       | None => (Throw UnknownId, w)
       end).

(** Modelled from the spec: overlays are created and deleted through the
    store (§3); no store call is issued for an empty list, as the test
    without coordinate flags observes no batch then. *)
Definition createOverlays (entries : list (Geometry * Properties))
  : M St (list FeatureId) :=
  match entries with
  | [] => ret []
  | _ => onStore base (create entries)
  end.

Definition deleteOverlays (ids : list FeatureId) : M St unit :=
  match ids with
  | [] => ret tt
  | _ => onStore base (delete (map Some ids))
  end.

Definition createSelectionOverlays (id : FeatureId) (cf : CoordinateFlags)
  : M St unit :=
  g <- getGeometryCopy id ;;
  pts <- createOverlays (selectionPointEntries id g) ;;
  update (setSelectionPoints pts) ;;
  if midpoints cf then
    mids <- createOverlays (midPointEntries id g) ;;
    update (setMidPoints mids)
  else ret tt.

Definition deleteSelectionOverlays : M St unit :=
  pts <- this selectionPoints ;;
  deleteOverlays pts ;;
  update (setSelectionPoints []) ;;
  mids <- this midPoints ;;
  deleteOverlays mids ;;
  update (setMidPoints []).

(** Modelled from the spec: §4.E.1 "On selection, set the feature's
    selected property to true (store updateProperty) and create overlay
    points per flags"; selection points come before midpoints, as the
    test-suite observes the batches. *)
Definition select (id : FeatureId) (fl : FeatureFlags) : M St unit :=
  update (setSelected (Some id)) ;;
  onStore base (updateProperty [(id, "selected", JBool true)]) ;;
  emit (OnSelect id) ;;
  match coordinates fl with
  | Some cf => createSelectionOverlays id cf
  | None => ret tt
  end.

(** Modelled from the spec: §5 "old feature selected->false, old overlays
    deleted"; §4.E.1 "emit onDeselect(oldId)". *)
Definition deselect : M St unit :=
  sel <- this selected ;;
  match sel with
  | None => ret tt
  | Some old =>
      onStore base (updateProperty [(old, "selected", JBool false)]) ;;
      emit (OnDeselect old) ;;
      update (setSelected None) ;;
      deleteSelectionOverlays
  end.

(* ---------------- hit testing ---------------- *)

Definition cursorPx (e : TerraDrawMouseEvent) : Q * Q :=
  (containerX e, containerY e).

Definition modeOf (f : Feature) : option string :=
  match getProp "mode" (properties f) with
  | Some (JStr md) => Some md
  | _ => None
  end.

Fixpoint lookupFlags (md : string) (fl : Flags) : option ModeFlags :=
  match fl with
  | [] => None
  | (k, v) :: rest => if String.eqb md k then Some v else lookupFlags md rest
  end.

Definition isOverlay (md : string) : bool :=
  String.eqb md "selection-point" || String.eqb md "midpoint".

(** Modelled from the spec: §4.E "A missing entry means the geometry kind
    is not selectable"; §3 invariant 6: overlays are never selectable. *)
Definition featureFlags (m : TerraDrawSelectMode) (f : Feature) : option FeatureFlags :=
  match modeOf f with
  | Some md =>
      if isOverlay md then None
      else match lookupFlags md (flags m) with
           | Some mf => feature mf
           | None => None
           end
  | None => None
  end.

Definition withinPointerDistance (m : TerraDrawSelectMode) (d : Q) : bool :=
  Qle_bool d (pointerDistance m).

(** Modelled from the spec: §4.E.1 step 3, the hit test of each geometry
    kind. *)
Definition hits (m : TerraDrawSelectMode) (e : TerraDrawMouseEvent) (f : Feature) : bool :=
  match geometry f with
  | Point c => withinPointerDistance m (pixelDistance (cursorPx e) (project c))
  | LineString cs =>
      existsb (fun ab =>
                 withinPointerDistance m
                   (pointToLineDistancePx (cursorPx e) (project (fst ab))
                                          (project (snd ab))))
              (segments cs)
  | Polygon (ring :: _) => pointInPolygon (lng e, lat e) ring
  | Polygon [] => false
  end.

Definition kindRank (g : Geometry) : nat :=
  match g with
  | Point _ => 0
  | LineString _ => 1
  | Polygon _ => 2
  end.

(** Modelled from the spec: §4.E.1 step 3, the selectable features under
    the cursor, points before lines before polygons. *)
Definition clickedFeature (m : TerraDrawSelectMode) (e : TerraDrawMouseEvent)
  (w : World) : option (Feature * FeatureFlags) :=
  let candidates :=
    flat_map (fun f =>
                match featureFlags m f with
                | Some fl => if hits m e f then [(f, fl)] else []
                | None => []
                end)
             (features w) in
  let ofRank r :=
    filter (fun c => Nat.eqb (kindRank (geometry (fst c))) r) candidates in
  hd_error (ofRank 0%nat ++ ofRank 1%nat ++ ofRank 2%nat).

(** Modelled from the spec: §4.E.1 steps 1 and 2, the first overlay of
    [ids] within [pointerDistance] of the cursor. *)
Definition overlayHit (m : TerraDrawSelectMode) (e : TerraDrawMouseEvent)
  (w : World) (ids : list FeatureId) : option Feature :=
  find (fun f => hits m e f)
       (flat_map (fun id =>
                    match lookupFeature id (features w) with
                    | Some f => [f]
                    | None => []
                    end) ids).

Definition coordinateFlagsOf (m : TerraDrawSelectMode) (w : World)
  (id : FeatureId) : option CoordinateFlags :=
  match lookupFeature id (features w) with
  | Some f =>
      match featureFlags m f with
      | Some fl => coordinates fl
      | None => None
      end
  | None => None
  end.

(* ---------------- editing the ring ---------------- *)

Definition insertAt (k : nat) (c : Position) (cs : list Position) : list Position :=
  firstn k cs ++ c :: skipn k cs.

Definition insertVertex (k : nat) (c : Position) (g : Geometry) : Geometry :=
  match g with
  | Polygon (ring :: holes) => Polygon (insertAt k c ring :: holes)
  | LineString cs => LineString (insertAt k c cs)
  | other => other
  end.

Fixpoint removeAt (k : nat) (cs : list Position) : list Position :=
  match cs, k with
  | [], _ => []
  | _ :: rest, O => rest
  | c :: rest, S k' => c :: removeAt k' rest
  end.

(** Modelled from the spec: §4.E.2 "Delete that vertex from the parent's
    ring".  Vertex 0 is also the closing coordinate, so the ring is closed
    again on its new first vertex (scenario 5: a square becomes a closed
    triangle of 4 coordinates). *)
Definition removeRingVertex (k : nat) (ring : list Position) : list Position :=
  match k with
  | O =>
      match removelast (tl ring) with
      | [] => []
      | c :: rest => (c :: rest) ++ [c]
      end
  | _ => removeAt k ring
  end.

Definition samePosition (a b : Position) : bool :=
  Qeq_bool (fst a) (fst b) && Qeq_bool (snd a) (snd b).

Definition closed (ring : list Position) : bool :=
  match ring with
  | [] => false
  | c :: _ => samePosition c (last ring c)
  end.

(** Modelled from the spec: §3 invariants 2 and 3 for an outer ring. *)
Definition ringValid (ring : list Position) : bool :=
  (4 <=? List.length ring)%nat && closed ring && negb (selfIntersects ring).

Fixpoint noConsecutiveDuplicates (cs : list Position) : bool :=
  match cs with
  | a :: rest =>
      match rest with
      | b :: _ => negb (samePosition a b) && noConsecutiveDuplicates rest
      | [] => true
      end
  | [] => true
  end.

(** Modelled from the spec: §4.E.2 "Validate: resulting polygon must
    still satisfy §3": the geometry left by deleting vertex [k], when it
    is still valid. *)
Definition deleteVertex (k : nat) (g : Geometry) : option Geometry :=
  match g with
  | Polygon (ring :: holes) =>
      let ring' := removeRingVertex k ring in
      if ringValid ring' then Some (Polygon (ring' :: holes)) else None
  | LineString cs =>
      let cs' := removeAt k cs in
      if (2 <=? List.length cs')%nat && noConsecutiveDuplicates cs'
      then Some (LineString cs') else None
  | _ => None
  end.

Definition natProp (k : string) (f : Feature) : option nat :=
  match getProp k (properties f) with
  | Some (JNum n) => if 0 <=? n then Some (Z.to_nat n) else None
  | _ => None
  end.

(* ---------------- handlers ---------------- *)

Definition rebuildOverlays (id : FeatureId) (cf : CoordinateFlags) : M St unit :=
  deleteSelectionOverlays ;;
  createSelectionOverlays id cf.

(** Modelled from the spec: §4.E.1 step 2, "insert a new vertex at that
    midpoint into the parent's ring at segmentIndex+1, rebuild overlays,
    remain Selected". *)
Definition insertMidpoint (id : FeatureId) (cf : CoordinateFlags) (mid : Feature)
  : M St unit :=
  match geometry mid, natProp "segmentIndex" mid with
  | Point c, Some k =>
      g <- getGeometryCopy id ;;
      onStore base (updateGeometry [(Some id, insertVertex (S k) c g)]) ;;
      rebuildOverlays id cf
  | _, _ => ret tt
  end.

(** Modelled from the spec: §4.E.1, steps 1 to 6 in that order. *)
Definition onLeftClick (event : TerraDrawMouseEvent) : M St unit :=
  m <- this (fun m => m) ;;
  w <- world ;;
  match
    match selected m with
    | Some id => overlayHit m event w (selectionPoints m)
    | None => None
    end
  with
  | Some _ => ret tt
  | None =>
      match
        match selected m with
        | Some id =>
            match overlayHit m event w (midPoints m), coordinateFlagsOf m w id with
            | Some mid, Some cf => Some (id, cf, mid)
            | _, _ => None
            end
        | None => None
        end
      with
      | Some (id, cf, mid) => insertMidpoint id cf mid
      | None =>
          match clickedFeature m event w with
          | Some (f, fl) =>
              if match selected m with
                 | Some id => Nat.eqb id (fid f)
                 | None => false
                 end
              then ret tt
              else deselect ;; select (fid f) fl
          | None =>
              if allowManualDeselection m then deselect else ret tt
          end
      end
  end.

(** Modelled from the spec: §4.E.2 "Right-click on a selected feature's
    vertex ... with coordinates.deletable true".  The vertex a right click
    would delete: the selected feature, the index of the hit selection
    point and the parent's geometry. *)
Definition rightClickTarget (m : TerraDrawSelectMode) (e : TerraDrawMouseEvent)
  (w : World) : option (FeatureId * CoordinateFlags * nat * Geometry) :=
  match selected m with
  | Some id =>
      match overlayHit m e w (selectionPoints m),
            coordinateFlagsOf m w id,
            lookupFeature id (features w) with
      | Some pt, Some cf, Some parent =>
          match natProp "index" pt with
          | Some k =>
              if deletable cf then Some (id, cf, k, geometry parent) else None
          | None => None
          end
      | _, _, _ => None
      end
  | None => None
  end.

(** Modelled from the spec: §4.E.2.  An invalid result aborts before any
    store call; otherwise the overlays go, the parent gets its new
    geometry and the overlays are created again. *)
Definition onRightClick (event : TerraDrawMouseEvent) : M St unit :=
  m <- this (fun m => m) ;;
  w <- world ;;
  match rightClickTarget m event w with
  | Some (id, cf, k, g) =>
      match deleteVertex k g with
      | Some g' =>
          pts <- this selectionPoints ;;
          mids <- this midPoints ;;
          deleteOverlays (mids ++ pts) ;;
          update (setSelectionPoints []) ;;
          update (setMidPoints []) ;;
          onStore base (updateGeometry [(Some id, g')]) ;;
          createSelectionOverlays id cf
      | None => ret tt
      end
  | None => ret tt
  end.

(** Modelled from the spec: §7 "NotRegistered | start/stop/handlers";
    the button decides between §4.E.1 and §4.E.2. *)
Definition onClick (event : TerraDrawMouseEvent) : M St unit :=
  registered <- this (fun m => storeDefined (base m)) ;;
  if negb registered then throw NotRegistered
  else
    match button event with
    | LeftButton => onLeftClick event
    | RightButton => onRightClick event
    | MiddleButton => ret tt
    end.

(* ---------------- lifecycle ---------------- *)

Definition register : M St unit := onBase base setBase baseRegister.

(** From the lifecycle test of the select mode ("can start correctly":
    [register], [start], then [state] reads "selecting").  The code that
    writes this value, in the select mode or in the mode base, is not
    among the sources, and §4.C of the specification does not list the
    value: the test is the only evidence for it. *)
Definition setSelecting : M BaseMode unit :=
  fun b => (Ok tt, mkBase "selecting" (storeDefined b)).

(** Modelled from the spec: §5 "stop ... runs cleanUp (delete draft
    features, remove overlays, reset counters)". *)
Definition cleanUp : M St unit := deselect.

(** Modelled from the spec: §4.C "start sets cursor (... "move" for
    select) and transitions state"; the state [start] leaves is the one
    of the lifecycle test, see [setSelecting]. *)
Definition start : M St unit :=
  onBase base setBase setStarted ;;
  onBase base setBase setSelecting ;;
  setCursor base "move".

(** Modelled from the spec: §4.C "stop cleans up transient state and
    restores cursor to unset". *)
Definition stop : M St unit :=
  onBase base setBase setStopped ;;
  setCursor base "unset" ;;
  cleanUp.

(* ---------------- styling ---------------- *)

Fixpoint lookupStyle (k : string) (st : Styles) : option StyleSetting :=
  match st with
  | [] => None
  | (k', v) :: rest => if String.eqb k k' then Some v else lookupStyle k rest
  end.

Fixpoint setStyle (k : string) (v : StyleSetting) (st : Styles) : Styles :=
  match st with
  | [] => [(k, v)]
  | (k', v') :: rest =>
      if String.eqb k k' then (k, v) :: rest else (k', v') :: setStyle k v rest
  end.

(** Modelled from the spec: §9 "wrapping literals as constant functions
    on lookup". *)
Definition resolve (s : StyleSetting) (f : Feature) : StyleValue :=
  match s with
  | Literal v => v
  | Computed g => g f
  end.

Fixpoint setStyling (k : string) (v : StyleValue) (st : TerraDrawAdapterStyling)
  : TerraDrawAdapterStyling :=
  match st with
  | [] => [(k, v)]
  | (k', v') :: rest =>
      if String.eqb k k' then (k, v) :: rest else (k', v') :: setStyling k v rest
  end.

Fixpoint getStyling (k : string) (st : TerraDrawAdapterStyling) : option StyleValue :=
  match st with
  | [] => None
  | (k', v) :: rest => if String.eqb k k' then Some v else getStyling k rest
  end.

Definition isSelectedPolygon (f : Feature) : bool :=
  match geometry f, getProp "selected" (properties f) with
  | Polygon _, Some (JBool true) => true
  | _, _ => false
  end.

(** Modelled from the spec: §4.C [styles] maps "named style keys (e.g.
    selectedPolygonColor)" to settings.  Which style key of the mode
    feeds which key of the resolved style, and for which features, is
    written in the select mode's own [styleFeature], which is not among
    the sources and which the specification does not spell out: it is
    taken as a table of rules (style key, resolved key, features the rule
    applies to). *)
Definition StyleRule := (string * string * (Feature -> bool))%type.

Variable styleTable : list StyleRule.

(** The four rules the [styleFeature] tests pin, all on selected
    polygons. *)
Definition selectedPolygonRules : list StyleRule :=
  [ ("selectedPolygonColor", "polygonFillColor", isSelectedPolygon);
    ("selectedPolygonOutlineColor", "polygonOutlineColor", isSelectedPolygon);
    ("selectedPolygonOutlineWidth", "polygonOutlineWidth", isSelectedPolygon);
    ("selectedPolygonFillOpacity", "polygonFillOpacity", isSelectedPolygon) ].

Definition applyStyle (st : Styles) (f : Feature)
  (acc : TerraDrawAdapterStyling) (row : StyleRule)
  : TerraDrawAdapterStyling :=
  let '(k, out, applies) := row in
  if applies f then
    match lookupStyle k st with
    | Some s => setStyling out (resolve s f) acc
    | None => acc
    end
  else acc.

(** Modelled from the spec: §4.C "styleFeature(feature) -> resolved
    style: evaluates functions against the given feature and merges with
    defaults": the resolved style starts as the default styling and every
    rule that applies to the feature and whose style key is configured
    overrides its resolved key. *)
Definition styleFeatureWith (st : Styles) (f : Feature) : TerraDrawAdapterStyling :=
  fold_left (applyStyle st f) styleTable defaultStyling.

Definition styleFeature (m : TerraDrawSelectMode) (f : Feature)
  : TerraDrawAdapterStyling :=
  styleFeatureWith (styles m) f.

Definition setStyles (st : Styles) (m : TerraDrawSelectMode) :=
  mk (base m) (flags m) (allowManualDeselection m) (pointerDistance m) st
     (selected m) (selectionPoints m) (midPoints m).

Definition state (m : TerraDrawSelectMode) : string := _state (base m).

(** The calls on a select mode object that are modelled here. *)
Inductive Method :=
| Register
| Start
| Stop
| WriteState (s : string)
| OnClick (event : TerraDrawMouseEvent)
| CleanUp.

Definition invoke (c : Method) : M St unit :=
  match c with
  | Register => register
  | Start => start
  | Stop => stop
  | WriteState s => onBase base setBase (writeState s)
  | OnClick e => onClick e
  | CleanUp => cleanUp
  end.

End WithConfig.

End SelectMode.

(** A client drives a mode object by a sequence of calls and catches
    whatever a call throws. *)
Fixpoint runCalls {S C : Type} (invoke : C -> M S unit) (cs : list C) (s : S) : S :=
  match cs with
  | [] => s
  | c :: rest => runCalls invoke rest (snd (invoke c s))
  end.

(* ================================================================== *)
(** ** Vocabulary of the statements *)
(* ================================================================== *)




(** The notification of one store call made for a list of overlays: none
    for an empty list. *)
Definition batch (ids : list FeatureId) (k : ChangeKind)
  : list (list FeatureId * ChangeKind) :=
  match ids with
  | [] => []
  | _ => [(ids, k)]
  end.

(** The store calls made for a list of overlays: none for an empty list. *)
Definition createCalls (entries : list (Geometry * Properties)) : list StoreCall :=
  match entries with
  | [] => []
  | _ => [CallCreate entries]
  end.

Definition deleteCalls (ids : list FeatureId) : list StoreCall :=
  match ids with
  | [] => []
  | _ => [CallDelete (map Some ids)]
  end.

Definition storeIds (w : World) : list FeatureId := map fid (features w).

Definition memberb (i : FeatureId) (ids : list FeatureId) : bool :=
  existsb (Nat.eqb i) ids.

(** The bookkeeping of the select mode agrees with the store: every
    overlay it remembers is in the store, and no id is remembered both as
    a selection point and as a midpoint. *)
Definition overlaysPresent (m : SelectMode.TerraDrawSelectMode) (w : World) : bool :=
  forallb (fun i => memberb i (storeIds w)) (SelectMode.selectionPoints m)
  && forallb (fun i => memberb i (storeIds w)
                       && negb (memberb i (SelectMode.selectionPoints m)))
             (SelectMode.midPoints m).


(** A left click that gets past the overlay tests of §4.E.1 (steps 1 and
    2): it is then decided by the feature under the cursor. *)
Definition reachesFeatureTest {kernel : GeometryKernel}
  (project : Position -> Q * Q)
  (m : SelectMode.TerraDrawSelectMode) (e : TerraDrawMouseEvent) (w : World) : bool :=
  match SelectMode.overlayHit project m e w (SelectMode.selectionPoints m),
        SelectMode.overlayHit project m e w (SelectMode.midPoints m) with
  | None, None => true
  | _, _ => false
  end.

(* ================================================================== *)
(** ** Scenarios of the test-suites *)
(* ================================================================== *)

Module Scenarios.

Import PlanarKernel.

(** [MockCursorEvent]: forty pixels per degree, no key held. *)
Definition cursorAt (x y : Q) (b : Button) : TerraDrawMouseEvent :=
  mkMouseEvent x y (x * 40)%Q (y * 40)%Q b [].

Definition square (o : Q) : Geometry :=
  Polygon [[ (o, o); (o, (o + 1)%Q); ((o + 1)%Q, (o + 1)%Q);
             ((o + 1)%Q, o); (o, o) ]].

Definition triangle : Geometry :=
  Polygon [[ (0%Q, 0%Q); (0%Q, 1%Q); (1%Q, 1%Q); (0%Q, 0%Q) ]].

(** [addPolygonToStore] *)
Definition withPolygon (g : Geometry) (w : World) : World :=
  snd (create [(g, [("mode", JStr "polygon")])] w).

Definition polygonFlags (cf : option SelectMode.CoordinateFlags) : SelectMode.Flags :=
  [("polygon",
    SelectMode.mkModeFlags (Some (SelectMode.mkFeatureFlags false cf)))].

Definition allCoordinateFlags : SelectMode.CoordinateFlags :=
  SelectMode.mkCoordinateFlags false true true.

(** Circle mode: registered, then one click at (0,0). *)
Definition circleDraft : CircleMode.St :=
  runCalls CircleMode.invoke
    [CircleMode.Register; CircleMode.OnClick (cursorAt 0 0 LeftButton)]
    (CircleMode.new None, emptyWorld).

(** ... then the cursor has moved to (1,1). *)
Definition circleSized : CircleMode.St :=
  runCalls CircleMode.invoke
    [CircleMode.OnMouseMove (cursorAt 1 1 LeftButton)] circleDraft.

(** ... and a second click. *)
Definition circleFinished : CircleMode.St :=
  runCalls CircleMode.invoke
    [CircleMode.OnClick (cursorAt 0 0 LeftButton)] circleSized.

Definition twoSquares : World :=
  withPolygon (square 2) (withPolygon (square 0) emptyWorld).

(** Select mode over two squares, registered. *)
Definition selectRegistered (allow : option bool) : SelectMode.St :=
  runCalls (SelectMode.invoke project) [SelectMode.Register]
    (SelectMode.new (polygonFlags (Some allCoordinateFlags)) allow None [],
     twoSquares).

(** ... with the first square selected by a click at (0.5, 0.5). *)
Definition firstSelected (allow : option bool) : SelectMode.St :=
  runCalls (SelectMode.invoke project)
    [SelectMode.OnClick (cursorAt 0.5 0.5 LeftButton)]
    (selectRegistered allow).

(** Select mode over the triangle, selected by a click inside it. *)
Definition triangleSelected : SelectMode.St :=
  runCalls (SelectMode.invoke project)
    [SelectMode.Register;
     SelectMode.OnClick (cursorAt 0.322723 0.672897 LeftButton)]
    (SelectMode.new (polygonFlags (Some allCoordinateFlags)) None None [],
     withPolygon triangle emptyWorld).

(** The defaults the styling tests read back. *)
Definition defaultStyling : SelectMode.TerraDrawAdapterStyling :=
  [ ("polygonFillColor", SelectMode.SHex "#3f97e0");
    ("polygonFillOpacity", SelectMode.SNum 0.3);
    ("polygonOutlineColor", SelectMode.SHex "#3f97e0") ].

Definition selectedPolygonFeature : Feature :=
  mkFeature 0%nat (Polygon [])
    [("mode", JStr "polygon"); ("selected", JBool true)].

Definition unselectedPolygonFeature : Feature :=
  mkFeature 0%nat (Polygon []) [("mode", JStr "polygon")].

(** The styles of the [styleFeature] tests, given as functions. *)
Definition selectedPolygonStyles : SelectMode.Styles :=
  [ ("selectedPolygonOutlineWidth",
     SelectMode.Computed (fun _ => SelectMode.SNum 4));
    ("selectedPolygonColor",
     SelectMode.Computed (fun _ => SelectMode.SHex "#222222"));
    ("selectedPolygonOutlineColor",
     SelectMode.Computed (fun _ => SelectMode.SHex "#111111"));
    ("selectedPolygonFillOpacity",
     SelectMode.Computed (fun _ => SelectMode.SNum 1)) ].

(** Circle mode: registered and started, one click at (0,0), then the
    cursor at (1,1). *)
Definition circleStartedSized : CircleMode.St :=
  runCalls CircleMode.invoke
    [CircleMode.Register; CircleMode.Start;
     CircleMode.OnClick (cursorAt 0 0 LeftButton);
     CircleMode.OnMouseMove (cursorAt 1 1 LeftButton)]
    (CircleMode.new None, emptyWorld).

End Scenarios.

(* ================================================================== *)
(** ** Point mode styling (src/modes/point/point.mode.ts, styleFeature) *)
(* ================================================================== *)

Module PointStyle.

(** A value of the adapter styling: a hex colour or a number. *)
Inductive StyleValue :=
| Colour (hex : string)
| Number (n : Q).

(** [TerraDrawAdapterStyling]: a JavaScript object, read and assigned by
    key.  Its declaration ([../../common]) is not among the sources. *)
Definition TerraDrawAdapterStyling := list (string * StyleValue).

Fixpoint readKey (k : string) (o : TerraDrawAdapterStyling) : option StyleValue :=
  match o with
  | [] => None
  | (k', v) :: rest => if String.eqb k k' then Some v else readKey k rest
  end.

(** [o.k = v] *)
Fixpoint assignKey (k : string) (v : StyleValue) (o : TerraDrawAdapterStyling)
  : TerraDrawAdapterStyling :=
  match o with
  | [] => [(k, v)]
  | (k', v') :: rest =>
      if String.eqb k k' then (k, v) :: rest else (k', v') :: assignKey k v rest
  end.

(** [Partial<PointModeStyling>], the [styles] option of the constructor. *)
Record PointModeStyling := mkStyling {
  pointWidth : option Q;
  pointColor : option string;
  pointOutlineColor : option string;
  pointOutlineWidth : option Q
}.

(** [if (x)] on an optional number: undefined and 0 are falsy. *)
Definition truthyNumber (n : option Q) : option Q :=
  match n with
  | Some q => if Qeq_bool q 0 then None else Some q
  | None => None
  end.

(** [if (x)] on an optional string: undefined and the empty string are
    falsy. *)
Definition truthyString (s : option string) : option string :=
  match s with
  | Some EmptyString => None
  | other => other
  end.

(** [feature.type === 'Feature' && feature.geometry.type === 'Point' &&
    feature.properties.mode === this.mode]; every feature of the store
    has type 'Feature'. *)
Definition isOwnPoint (feature : Feature) : bool :=
  match geometry feature with
  | Point _ =>
      match getProp "mode" (properties feature) with
      | Some (JStr md) => String.eqb md PointMode.mode
      | _ => false
      end
  | _ => false
  end.

(** [styleFeature(feature)]; [defaultStyling] is the value of
    [getDefaultStyling()], which is not among the sources. *)
Definition styleFeature (defaultStyling : TerraDrawAdapterStyling)
  (this_styles : PointModeStyling) (feature : Feature) : TerraDrawAdapterStyling :=
  let styles := defaultStyling in
  if isOwnPoint feature then
    let styles :=
      match truthyString (pointColor this_styles) with
      | Some c => assignKey "pointColor" (Colour c) styles
      | None => styles
      end in
    let styles :=
      match truthyString (pointOutlineColor this_styles) with
      | Some c => assignKey "pointOutlineColor" (Colour c) styles
      | None => styles
      end in
    let styles :=
      match truthyNumber (pointOutlineWidth this_styles) with
      | Some n => assignKey "pointOutlineWidth" (Number n) styles
      | None => styles
      end in
    let styles :=
      match truthyNumber (pointWidth this_styles) with
      | Some n => assignKey "pointWidth" (Number n) styles
      | None => styles
      end in
    styles
  else styles.

End PointStyle.

(* ================================================================== *)
(** ** Vocabulary of the draw-mode statements *)
(* ================================================================== *)

(** The id counter of the store is ahead of every id in it. *)
Definition counterAhead (w : World) : bool :=
  forallb (fun i => Nat.ltb i (nextId w)) (storeIds w).

(** What the fields of a circle mode object satisfy between calls. *)
Definition circleConsistent (m : CircleMode.TerraDrawCircleMode) : Prop :=
  (CircleMode.clickCount m = 0 \/ CircleMode.clickCount m = 1)
  /\ (CircleMode.clickCount m = 1 ->
      CircleMode.center m <> None
      /\ CircleMode.currentCircleId m <> None
      /\ storeDefined (CircleMode.base m) = true).

(** Feature [f] is stored under [j], and [j] is not the draft of the
    circle mode. *)
Definition notTheDraft (j : FeatureId) (f : Feature) (s : CircleMode.St) : Prop :=
  lookupFeature j (features (snd s)) = Some f
  /\ (j < nextId (snd s))%nat
  /\ CircleMode.currentCircleId (fst s) <> Some j.

(** The planar kernel with a store that refuses every geometry. *)
Module RejectingKernel.

Definition kernel : GeometryKernel := {|
  haversineDistanceKilometers := PlanarKernel.dist1;
  circle := PlanarKernel.diamond;
  midpointGreatCircle := PlanarKernel.mid;
  pointInPolygon := PlanarKernel.inRing;
  pixelDistance := PlanarKernel.dist1;
  pointToLineDistancePx :=
    fun p a b => Qmin (PlanarKernel.dist1 p a) (PlanarKernel.dist1 p b);
  selfIntersects := fun _ => false;
  validGeometry := fun _ => false
|}.

End RejectingKernel.

(* ================================================================== *)
(** ** Properties of the circle mode *)
(* ================================================================== *)

Section CircleProperties.

Context {kernel : GeometryKernel}.

Import CircleMode.

(** C1 (as amended): with a draft in progress, a click finalizes the
    drawing by returning the mode to Idle and nothing else: the call
    returns normally, centre, draft id and click count are reset, and the
    world is left exactly as it was, so the draft stays in the store, no
    store method is called, no change is notified and no callback (in
    particular no onFinish) is emitted. *)
Theorem circle_second_click_finalizes :
  forall (m : TerraDrawCircleMode) (w : World) (e : TerraDrawMouseEvent),
    clickCount m <> 0 ->
    exists m',
      onClick e (m, w) = (Ok tt, (m', w))
      /\ center m' = None
      /\ currentCircleId m' = None
      /\ clickCount m' = 0
      /\ base m' = base m.
Proof.
  intros m w e Hdraft.
  exists (mk (base m) None 0 None (keyEvents_cancel m)).
  repeat split.
  unfold onClick, bind, this; simpl.
  destruct (clickCount m =? 0) eqn:E.
  - apply Z.eqb_eq in E. contradiction.
  - reflexivity.
Qed.

(** C10: [cleanUp] always returns normally and leaves the mode in Idle;
    without a draft the store's delete fails with UnknownId, which is
    swallowed, and the store contents and the change notifications are
    what they were. *)
Theorem circle_cleanUp_never_throws :
  forall (m : TerraDrawCircleMode) (w : World),
    exists w',
      cleanUp (m, w) = (Ok tt, (mk (base m) None 0 None (keyEvents_cancel m), w'))
      /\ (currentCircleId m = None ->
          fst (delete [currentCircleId m] w) = Throw UnknownId
          /\ features w' = features w
          /\ onChange w' = onChange w
          /\ callbacks w' = callbacks w
          /\ nextId w' = nextId w).
Proof.
  intros m w.
  unfold cleanUp, bind, tryCatch, this, onStore, update, ret; simpl.
  destruct (storeDefined (base m)) eqn:Hreg; simpl.
  - destruct (delete [currentCircleId m] w) as [[[]|err] w1] eqn:Hdel; simpl;
      exists w1; (split; [reflexivity|]); intros Hnone;
      rewrite Hnone in Hdel; unfold delete in Hdel; simpl in Hdel;
      inversion Hdel; subst; simpl; auto.
  - exists w. split; [reflexivity|]. intros Hnone. rewrite Hnone.
    repeat split.
Qed.

(** The first click of a registered, idle mode whose starting circle the
    store accepts: one feature more, one create notification, and a draft
    in progress. *)
Lemma circle_first_click :
  forall (m : TerraDrawCircleMode) (w : World) (e : TerraDrawMouseEvent),
    clickCount m = 0 ->
    storeDefined (base m) = true ->
    validGeometry (circle (lng e, lat e) (1 # 100000)) = true ->
    exists w',
      onClick e (m, w)
      = (Ok tt, (mk (base m) (Some (lng e, lat e)) 1 (Some (nextId w))
                    (keyEvents_cancel m), w'))
      /\ map fid (features w') = map fid (features w) ++ [nextId w]
      /\ onChange w' = onChange w ++ [([nextId w], ChCreate)].
Proof.
  intros m w e Hc Hreg Hvalid.
  unfold onClick, bind, this, update, onStore, create; simpl.
  rewrite Hc; simpl. rewrite Hreg; simpl. rewrite Hvalid; simpl.
  rewrite Hc; simpl.
  eexists. split; [reflexivity|]. simpl. split; [|reflexivity].
  rewrite map_app. reflexivity.
Qed.

Lemma has_spec_some i fs :
  has (Some i) fs
  = match lookupFeature i fs with Some _ => true | None => false end.
Proof. reflexivity. Qed.

Lemma lookup_replaceGeometry :
  forall id g fs f,
    lookupFeature id fs = Some f ->
    lookupFeature id (replaceGeometry id g fs)
    = Some (mkFeature (fid f) g (properties f)).
Proof.
  intros id g fs. induction fs as [|x xs IH]; intros f H; simpl in *.
  - discriminate.
  - destruct (Nat.eqb (fid x) id) eqn:E; simpl.
    + rewrite E. inversion H; subst. reflexivity.
    + rewrite E. apply IH. exact H.
Qed.

Lemma ids_replaceGeometry :
  forall id g fs, map fid (replaceGeometry id g fs) = map fid fs.
Proof.
  intros id g fs. induction fs as [|x xs IH]; simpl; [reflexivity|].
  rewrite IH. destruct (Nat.eqb (fid x) id); reflexivity.
Qed.

(** C7 (as amended): with a draft in progress a mouse-move issues exactly
    one [store.updateGeometry], for the draft's id, with the circle around
    the recorded centre whose radius is the haversine distance from the
    centre to the cursor; the mode itself is unchanged; when the store
    holds the draft and accepts the circle, the call returns, the ids in
    the store are what they were, the draft's geometry is that circle and
    one update is notified.  Without a draft a mouse-move changes
    nothing. *)
Theorem circle_mouse_move_updates_draft :
  (forall (m : TerraDrawCircleMode) (w : World) (e : TerraDrawMouseEvent)
          (c : Position) (id : FeatureId),
      clickCount m = 1 ->
      center m = Some c ->
      currentCircleId m = Some id ->
      storeDefined (base m) = true ->
      let g := circle c (haversineDistanceKilometers c (lng e, lat e)) in
      exists r w',
        onMouseMove e (m, w) = (r, (m, w'))
        /\ spied w' = spied w ++ [CallUpdateGeometry [(Some id, g)]]
        /\ (has (Some id) (features w) = true ->
            validGeometry g = true ->
            r = Ok tt
            /\ map fid (features w') = map fid (features w)
            /\ option_map geometry (lookupFeature id (features w')) = Some g
            /\ onChange w' = onChange w ++ [([id], ChUpdate)]))
  /\
  (forall (m : TerraDrawCircleMode) (w : World) (e : TerraDrawMouseEvent),
      clickCount m <> 1 ->
      onMouseMove e (m, w) = (Ok tt, (m, w))).
Proof.
  split.
  - intros m w e c id Hn Hc Hid Hreg g.
    unfold onMouseMove, bind, this, onStore, has.
    cbn [fst snd]. rewrite Hn. cbn [Z.eqb Pos.eqb fst snd]. rewrite Hc.
    cbn [fst snd]. rewrite Hreg, Hid. fold g.
    destruct (updateGeometry [(Some id, g)] w) as [r w'] eqn:Hupd.
    exists r, w'. split; [reflexivity|].
    unfold updateGeometry in Hupd; simpl in Hupd.
    destruct (lookupFeature id (features w)) as [f|] eqn:Hl; simpl in Hupd.
    + destruct (validGeometry g) eqn:Hv; simpl in Hupd;
        inversion Hupd; subst; simpl; (split; [reflexivity|]);
        intros _ Hv'; try discriminate.
      split; [reflexivity|].
      split; [apply ids_replaceGeometry|].
      split; [|reflexivity].
      rewrite (lookup_replaceGeometry id g _ f Hl). reflexivity.
    + inversion Hupd; subst; simpl. split; [reflexivity|].
      intros Hhas. discriminate.
  - intros m w e Hn.
    unfold onMouseMove, bind, this; simpl.
    destruct (clickCount m =? 1) eqn:E.
    + apply Z.eqb_eq in E. contradiction.
    + reflexivity.
Qed.

Lemma replaceGeometry_idempotent id g fs :
  replaceGeometry id g (replaceGeometry id g fs) = replaceGeometry id g fs.
Proof.
  induction fs as [|x xs IH]; simpl; [reflexivity|].
  rewrite IH. destruct (Nat.eqb (fid x) id) eqn:E; simpl; rewrite E; reflexivity.
Qed.

Lemma updateGeometry_repeated id g w :
  features (snd (updateGeometry [(id, g)] (snd (updateGeometry [(id, g)] w))))
  = features (snd (updateGeometry [(id, g)] w)).
Proof.
  unfold updateGeometry. simpl.
  destruct id as [i|]; [|reflexivity]. simpl.
  destruct (lookupFeature i (features w)) as [f|] eqn:Hl; simpl.
  - destruct (validGeometry g) eqn:Hv; simpl.
    + rewrite (lookup_replaceGeometry i g _ f Hl). simpl.
      apply replaceGeometry_idempotent.
    + rewrite Hl. reflexivity.
  - rewrite Hl. reflexivity.
Qed.

Lemma onMouseMove_unfold (m : TerraDrawCircleMode) w e :
  onMouseMove e (m, w)
  = if clickCount m =? 1 then
      match center m with
      | Some c =>
          if storeDefined (base m) then
            (fst (updateGeometry
                    [(currentCircleId m,
                      circle c (haversineDistanceKilometers c (lng e, lat e)))] w),
             (m, snd (updateGeometry
                        [(currentCircleId m,
                          circle c (haversineDistanceKilometers c (lng e, lat e)))] w)))
          else (Throw TypeError, (m, w))
      | None => (Throw TypeError, (m, w))
      end
    else (Ok tt, (m, w)).
Proof.
  unfold onMouseMove, bind, this, onStore, throw, ret. cbn [fst snd].
  destruct (clickCount m =? 1); [|reflexivity]. cbn [fst snd].
  destruct (center m) as [c|]; [|reflexivity]. cbn [fst snd].
  destruct (storeDefined (base m)); [|reflexivity].
  destruct (updateGeometry _ w); reflexivity.
Qed.

(** Whatever the kernel, a mouse-move repeated at the same cursor leaves
    the features of the store as the first one left them. *)
Lemma circle_mouse_move_repeated :
  forall (m : TerraDrawCircleMode) (w : World) (e : TerraDrawMouseEvent),
    features (snd (snd (onMouseMove e (snd (onMouseMove e (m, w))))))
    = features (snd (snd (onMouseMove e (m, w)))).
Proof.
  intros m w e. rewrite (onMouseMove_unfold m w e).
  destruct (clickCount m =? 1) eqn:Hn.
  - destruct (center m) as [c|] eqn:Hc.
    + destruct (storeDefined (base m)) eqn:Hreg.
      * cbn [snd]. rewrite onMouseMove_unfold, Hn, Hc, Hreg. cbn [snd].
        apply updateGeometry_repeated.
      * cbn [snd]. rewrite onMouseMove_unfold, Hn, Hc, Hreg. reflexivity.
    + cbn [snd]. rewrite onMouseMove_unfold, Hn, Hc. reflexivity.
  - cbn [snd]. rewrite onMouseMove_unfold, Hn. reflexivity.
Qed.

End CircleProperties.

(* ================================================================== *)
(** ** Lifecycle *)
(* ================================================================== *)

Section Preservation.

Context {Mode : Type}.
Variable getBase : Mode -> BaseMode.
Variable setBase : BaseMode -> Mode -> Mode.

Variable P : Mode -> Prop.











End Preservation.

















Section ModeLifecycle.

Context {kernel : GeometryKernel}.
Variable project : Position -> Q * Q.











End ModeLifecycle.

(* ================================================================== *)
(** ** Calls made before [register] *)
(* ================================================================== *)

Section BeforeRegister.

Context {kernel : GeometryKernel}.
Variable project : Position -> Q * Q.

(** C5 (as amended): on a mode that has not been registered, [start] and
    [stop] fail with NotRegistered for every mode, and so does [onClick]
    of the point and of the select mode; [onClick] of the circle mode
    throws as well; none of these calls touches the world.  The other
    handlers of the circle and point modes do not fail: they return
    normally and leave the world as it is. *)
Theorem calls_before_register :
  (* circle mode *)
  (forall m w, CircleMode.base m = newBase ->
      CircleMode.start (m, w) = (Throw NotRegistered, (m, w))
      /\ CircleMode.stop (m, w) = (Throw NotRegistered, (m, w)))
  /\ (forall m w e, CircleMode.base m = newBase -> CircleMode.clickCount m = 0 ->
      exists err m', CircleMode.onClick e (m, w) = (Throw err, (m', w)))
  /\ (forall m w e, CircleMode.base m = newBase -> CircleMode.clickCount m = 0 ->
      CircleMode.onMouseMove e (m, w) = (Ok tt, (m, w)))
  /\ (forall m w k, CircleMode.base m = newBase ->
      exists m', CircleMode.onKeyPress k (m, w) = (Ok tt, (m', w)))
  /\ (forall (s : CircleMode.St),
      CircleMode.onDragStart s = (Ok tt, s)
      /\ CircleMode.onDrag s = (Ok tt, s)
      /\ CircleMode.onDragEnd s = (Ok tt, s))
  (* point mode *)
  /\ (forall m w, PointMode.base m = newBase ->
      PointMode.start (m, w) = (Throw NotRegistered, (m, w))
      /\ PointMode.stop (m, w) = (Throw NotRegistered, (m, w)))
  /\ (forall m w e, PointMode.base m = newBase ->
      PointMode.onClick e (m, w) = (Throw NotRegistered, (m, w)))
  /\ (forall (s : PointMode.St),
      PointMode.onMouseMove s = (Ok tt, s)
      /\ PointMode.onKeyDown s = (Ok tt, s)
      /\ PointMode.onKeyUp s = (Ok tt, s)
      /\ PointMode.onDragStart s = (Ok tt, s)
      /\ PointMode.onDrag s = (Ok tt, s)
      /\ PointMode.onDragEnd s = (Ok tt, s)
      /\ PointMode.cleanUp s = (Ok tt, s))
  (* select mode *)
  /\ (forall m w, SelectMode.base m = newBase ->
      SelectMode.start (m, w) = (Throw NotRegistered, (m, w))
      /\ SelectMode.stop (m, w) = (Throw NotRegistered, (m, w)))
  /\ (forall m w e, SelectMode.base m = newBase ->
      SelectMode.onClick project e (m, w) = (Throw NotRegistered, (m, w))).
Proof.
  repeat match goal with |- _ /\ _ => split end.
  - intros [b c n i k] w H; simpl in H; subst. split; reflexivity.
  - intros [b c n i k] w e H Hn; simpl in *; subst.
    exists TypeError.
    exists (CircleMode.mk newBase (Some (lng e, lat e)) 0 i k).
    reflexivity.
  - intros [b c n i k] w e H Hn; simpl in *; subst. reflexivity.
  - intros [b c n i cancel] w k H; simpl in H; subst.
    unfold CircleMode.onKeyPress, bind, this; simpl.
    destruct (String.eqb (key k) cancel); eexists; reflexivity.
  - intros s. repeat split.
  - intros [b] w H; simpl in H; subst. split; reflexivity.
  - intros [b] w e H; simpl in H; subst. reflexivity.
  - intros s. repeat split.
  - intros [b f a d st sel pts mids] w H; simpl in H; subst. split; reflexivity.
  - intros [b f a d st sel pts mids] w e H; simpl in H; subst. reflexivity.
Qed.

End BeforeRegister.

(* ================================================================== *)
(** ** Style resolution of the select mode *)
(* ================================================================== *)

Section Styling.

Variable defaultStyling : SelectMode.TerraDrawAdapterStyling.
Variable styleTable : list SelectMode.StyleRule.

Import SelectMode.

Lemma lookupStyle_setStyle_same k v st :
  lookupStyle k (setStyle k v st) = Some v.
Proof.
  induction st as [|[k' v'] rest IH]; simpl.
  - rewrite String.eqb_refl. reflexivity.
  - destruct (String.eqb k k') eqn:E; simpl.
    + rewrite String.eqb_refl. reflexivity.
    + rewrite E. exact IH.
Qed.

Lemma lookupStyle_setStyle_other k k' v st :
  k <> k' -> lookupStyle k' (setStyle k v st) = lookupStyle k' st.
Proof.
  intros Hne. induction st as [|[k0 v0] rest IH]; simpl.
  - destruct (String.eqb k' k) eqn:E; [|reflexivity].
    apply String.eqb_eq in E. congruence.
  - destruct (String.eqb k k0) eqn:E; simpl.
    + apply String.eqb_eq in E. subst k0.
      destruct (String.eqb k' k) eqn:E'; [|reflexivity].
      apply String.eqb_eq in E'. congruence.
    + destruct (String.eqb k' k0); [reflexivity | exact IH].
Qed.

(** Two style mappings that resolve alike on a feature style it alike. *)
Lemma styleFeatureWith_ext st1 st2 f :
  (forall k, option_map (fun s => resolve s f) (lookupStyle k st1)
             = option_map (fun s => resolve s f) (lookupStyle k st2)) ->
  styleFeatureWith defaultStyling styleTable st1 f
  = styleFeatureWith defaultStyling styleTable st2 f.
Proof.
  intros Hext. unfold styleFeatureWith.
  generalize defaultStyling as acc.
  induction styleTable as [|[[k out] applies] rows IH]; intros acc;
    cbn [fold_left].
  - reflexivity.
  - replace (applyStyle st1 f acc (k, out, applies))
      with (applyStyle st2 f acc (k, out, applies)); [apply IH|].
    unfold applyStyle. cbn beta iota. specialize (Hext k).
    destruct (applies f) eqn:Ha; [|reflexivity].
    destruct (lookupStyle k st1), (lookupStyle k st2); simpl in Hext;
      try discriminate; congruence.
Qed.

Lemma getStyling_setStyling_same k v st :
  getStyling k (setStyling k v st) = Some v.
Proof.
  induction st as [|[k' v'] rest IH]; simpl.
  - rewrite String.eqb_refl. reflexivity.
  - destruct (String.eqb k k') eqn:E; simpl.
    + rewrite String.eqb_refl. reflexivity.
    + rewrite E. exact IH.
Qed.

Lemma getStyling_setStyling_other k k' v st :
  k <> k' -> getStyling k' (setStyling k v st) = getStyling k' st.
Proof.
  intros Hne. induction st as [|[k0 v0] rest IH]; simpl.
  - destruct (String.eqb k' k) eqn:E; [|reflexivity].
    apply String.eqb_eq in E. congruence.
  - destruct (String.eqb k k0) eqn:E; simpl.
    + apply String.eqb_eq in E. subst k0.
      destruct (String.eqb k' k) eqn:E'; [|reflexivity].
      apply String.eqb_eq in E'. congruence.
    + destruct (String.eqb k' k0); [reflexivity | exact IH].
Qed.

(** A resolved key that no applicable, configured rule writes is read as
    it was before the rules ran. *)
Lemma fold_applyStyle_kept st f out rows acc :
  (forall k applies, In (k, out, applies) rows -> applies f = true ->
                     lookupStyle k st = None) ->
  getStyling out (fold_left (applyStyle st f) rows acc) = getStyling out acc.
Proof.
  revert acc. induction rows as [|[[k o] applies] rest IH]; intros acc H;
    cbn [fold_left].
  - reflexivity.
  - rewrite IH by (intros k' ap' Hin Hap; apply (H k' ap'); [right|]; assumption).
    unfold applyStyle. destruct (applies f) eqn:Ha; [|reflexivity].
    destruct (lookupStyle k st) eqn:El; [|reflexivity].
    destruct (String.eqb o out) eqn:E.
    + apply String.eqb_eq in E. subst o.
      rewrite (H k applies (or_introl eq_refl) Ha) in El. discriminate.
    + apply getStyling_setStyling_other. apply String.eqb_neq. exact E.
Qed.

(** A resolved key whose applicable rules all read the style key [k],
    configured as [s], ends as [s] resolved on the feature. *)
Lemma fold_applyStyle_overridden st f k out s rows acc :
  lookupStyle k st = Some s ->
  (forall k' applies', In (k', out, applies') rows -> applies' f = true -> k' = k) ->
  (exists applies, In (k, out, applies) rows /\ applies f = true)
  \/ getStyling out acc = Some (resolve s f) ->
  getStyling out (fold_left (applyStyle st f) rows acc) = Some (resolve s f).
Proof.
  intros Hs. revert acc.
  induction rows as [|[[k0 o] ap] rest IH]; intros acc Huniq Hsrc;
    cbn [fold_left].
  - destruct Hsrc as [[ap [[] _]]|H]. exact H.
  - apply IH.
    + intros k' ap' Hin. apply Huniq. right. exact Hin.
    + destruct Hsrc as [[ap' [[Heq|Hin] Hap]]|Hacc].
      * inversion Heq; subst. right. unfold applyStyle.
        rewrite Hap, Hs. apply getStyling_setStyling_same.
      * left. exists ap'. split; assumption.
      * right. unfold applyStyle. destruct (ap f) eqn:Ha; [|exact Hacc].
        destruct (lookupStyle k0 st) eqn:El; [|exact Hacc].
        destruct (String.eqb o out) eqn:E.
        -- apply String.eqb_eq in E. subst o.
           assert (Hk : k0 = k)
             by (apply (Huniq k0 ap); [left; reflexivity | exact Ha]).
           subst k0. rewrite Hs in El. inversion El; subst.
           apply getStyling_setStyling_same.
        -- rewrite getStyling_setStyling_other
             by (apply String.eqb_neq; exact E).
           exact Hacc.
Qed.

(** C8: a style key set to a literal and the same key set to the constant
    function of that literal resolve every feature to the same style.  A
    setting is resolved on the feature being styled: a function is applied
    to that feature, a literal is itself.  The result is the default
    styling merged with the resolved settings: a resolved key written by
    an applicable rule whose style key is configured reads as that setting
    resolved on the feature, and every other key reads as in the default
    styling. *)
Theorem styleFeature_literal_or_function :
  (forall (m : TerraDrawSelectMode) (k : string) (v : StyleValue) (f : Feature),
      styleFeature defaultStyling styleTable
        (setStyles (setStyle k (Literal v) (styles m)) m) f
      = styleFeature defaultStyling styleTable
          (setStyles (setStyle k (Computed (fun _ => v)) (styles m)) m) f)
  /\ (forall (g : Feature -> StyleValue) (v : StyleValue) (f : Feature),
      resolve (Computed g) f = g f /\ resolve (Literal v) f = v)
  /\ (forall (m : TerraDrawSelectMode) (f : Feature) (k out : string)
             (applies : Feature -> bool) (s : StyleSetting),
      In (k, out, applies) styleTable ->
      applies f = true ->
      lookupStyle k (styles m) = Some s ->
      (forall k' applies',
          In (k', out, applies') styleTable -> applies' f = true -> k' = k) ->
      getStyling out (styleFeature defaultStyling styleTable m f)
      = Some (resolve s f))
  /\ (forall (m : TerraDrawSelectMode) (f : Feature) (out : string),
      (forall k applies,
          In (k, out, applies) styleTable -> applies f = true ->
          lookupStyle k (styles m) = None) ->
      getStyling out (styleFeature defaultStyling styleTable m f)
      = getStyling out defaultStyling).
Proof.
  split; [|split; [|split]].
  - intros m k v f. unfold styleFeature; simpl.
    apply styleFeatureWith_ext. intros k'.
    destruct (String.eqb k k') eqn:E.
    + apply String.eqb_eq in E. subst k'.
      rewrite !lookupStyle_setStyle_same. reflexivity.
    + apply String.eqb_neq in E.
      rewrite !lookupStyle_setStyle_other by assumption. reflexivity.
  - intros g v f. split; reflexivity.
  - intros m f k out applies s Hin Hap Hs Huniq.
    unfold styleFeature, styleFeatureWith.
    apply (fold_applyStyle_overridden (styles m) f k out s); try assumption.
    left. exists applies. split; assumption.
  - intros m f out Hnone. unfold styleFeature, styleFeatureWith.
    apply fold_applyStyle_kept. exact Hnone.
Qed.

End Styling.

(* ================================================================== *)
(** ** The store, seen through the ids it holds *)
(* ================================================================== *)

Lemma memberb_In i ids : memberb i ids = true <-> In i ids.
Proof.
  unfold memberb. rewrite existsb_exists. split.
  - intros [x [Hx He]]. apply Nat.eqb_eq in He. subst. exact Hx.
  - intros H. exists i. split; [exact H | apply Nat.eqb_refl].
Qed.

Lemma memberb_false i ids : memberb i ids = false <-> ~ In i ids.
Proof.
  rewrite <- memberb_In. destruct (memberb i ids); split; intros H;
    try discriminate; try reflexivity; try (intros H'; discriminate).
  exfalso. apply H. reflexivity.
Qed.

Lemma memberb_app i a b : memberb i (a ++ b) = memberb i a || memberb i b.
Proof. unfold memberb. apply existsb_app. Qed.

Lemma has_memberb i fs : has (Some i) fs = memberb i (map fid fs).
Proof.
  unfold has, lookupFeature. induction fs as [|f rest IH]; simpl.
  - reflexivity.
  - rewrite (Nat.eqb_sym i (fid f)).
    destruct (Nat.eqb (fid f) i); simpl; [reflexivity | exact IH].
Qed.


Lemma lookup_some_member i fs f :
  lookupFeature i fs = Some f -> memberb i (map fid fs) = true.
Proof.
  intros H. rewrite <- has_memberb. unfold has. rewrite H. reflexivity.
Qed.

Lemma ids_mergeProperty id k v fs :
  map fid (mergeProperty id k v fs) = map fid fs.
Proof.
  induction fs as [|x xs IH]; simpl; [reflexivity|].
  rewrite IH. destruct (Nat.eqb (fid x) id); reflexivity.
Qed.

Lemma geometry_mergeProperty id k v j fs :
  option_map geometry (lookupFeature j (mergeProperty id k v fs))
  = option_map geometry (lookupFeature j fs).
Proof.
  induction fs as [|x xs IH]; simpl; [reflexivity|].
  destruct (Nat.eqb (fid x) id) eqn:E; simpl;
    destruct (Nat.eqb (fid x) j); simpl; auto.
Qed.

Lemma ids_removeFeature i fs :
  map fid (removeFeature i fs)
  = filter (fun j => negb (Nat.eqb j i)) (map fid fs).
Proof.
  induction fs as [|x xs IH]; simpl; [reflexivity|].
  destruct (Nat.eqb (fid x) i); simpl; rewrite IH; reflexivity.
Qed.

Lemma ids_removeAll ids fs :
  map fid (fold_left (fun acc i => removeFeature i acc) ids fs)
  = filter (fun j => negb (memberb j ids)) (map fid fs).
Proof.
  revert fs. induction ids as [|i rest IH]; intros fs; simpl.
  - induction (map fid fs) as [|a l IHl]; simpl; [reflexivity|].
    rewrite <- IHl. reflexivity.
  - rewrite IH, ids_removeFeature.
    induction (map fid fs) as [|a l IHl]; simpl; [reflexivity|].
    destruct (Nat.eqb a i) eqn:E; simpl.
    + exact IHl.
    + rewrite IHl. reflexivity.
Qed.

Lemma lookup_removeFeature i j fs :
  Nat.eqb j i = false ->
  lookupFeature j (removeFeature i fs) = lookupFeature j fs.
Proof.
  intros Hne. induction fs as [|x xs IH]; simpl; [reflexivity|].
  destruct (Nat.eqb (fid x) i) eqn:E; simpl.
  - apply Nat.eqb_eq in E.
    destruct (Nat.eqb (fid x) j) eqn:E'; [|exact IH].
    apply Nat.eqb_eq in E'. rewrite <- E, <- E', Nat.eqb_refl in Hne. discriminate.
  - destruct (Nat.eqb (fid x) j); [reflexivity | exact IH].
Qed.

Lemma lookup_removeAll ids j fs :
  memberb j ids = false ->
  lookupFeature j (fold_left (fun acc i => removeFeature i acc) ids fs)
  = lookupFeature j fs.
Proof.
  revert fs. induction ids as [|i rest IH]; intros fs Hj; simpl.
  - reflexivity.
  - simpl in Hj. apply orb_false_iff in Hj. destruct Hj as [Hji Hrest].
    rewrite IH by exact Hrest. apply lookup_removeFeature. exact Hji.
Qed.

Lemma forallb_map_Some (p : option FeatureId -> bool) ids :
  forallb p (map Some ids) = forallb (fun i => p (Some i)) ids.
Proof. induction ids as [|i rest IH]; simpl; congruence. Qed.

Lemma defined_map_Some ids : defined (map Some ids) = ids.
Proof. induction ids as [|i rest IH]; simpl; congruence. Qed.

Lemma ids_buildFeatures from entries :
  map fid (buildFeatures from entries) = seq from (List.length entries).
Proof.
  revert from. induction entries as [|[g ps] rest IH]; intros from; simpl.
  - reflexivity.
  - rewrite IH. reflexivity.
Qed.

Lemma memberb_seq i from n :
  memberb i (seq from n) = (Nat.leb from i && Nat.ltb i (from + n))%nat.
Proof.
  destruct (memberb i (seq from n)) eqn:E.
  - apply memberb_In, in_seq in E. symmetry. apply andb_true_iff.
    split; [apply Nat.leb_le | apply Nat.ltb_lt]; lia.
  - apply memberb_false in E. rewrite in_seq in E. symmetry.
    apply andb_false_iff.
    destruct (Nat.leb from i) eqn:E1; [right | left; reflexivity].
    apply Nat.leb_le in E1. apply Nat.ltb_ge. lia.
Qed.

Section StoreRuns.

Context {kernel : GeometryKernel}.

Lemma updateProperty_run id k v w :
  memberb id (storeIds w) = true ->
  updateProperty [(id, k, v)] w
  = (Ok tt,
     emitChange [id] ChUpdate
       (setFeatures (mergeProperty id k v (features w))
                    (spy (CallUpdateProperty [(id, k, v)]) w))).
Proof.
  intros H. unfold updateProperty. cbn [forallb fst snd features spy map fold_left].
  rewrite has_memberb. unfold storeIds in H. rewrite H. reflexivity.
Qed.

Lemma delete_run ids w :
  forallb (fun i => memberb i (storeIds w)) ids = true ->
  delete (map Some ids) w
  = (Ok tt,
     emitChange ids ChDelete
       (setFeatures
          (fold_left (fun acc i => removeFeature i acc) ids (features w))
          (spy (CallDelete (map Some ids)) w))).
Proof.
  intros H. unfold delete. cbn [features spy].
  rewrite forallb_map_Some.
  replace (forallb (fun i => has (Some i) (features w)) ids) with true.
  - cbn [negb]. rewrite defined_map_Some. reflexivity.
  - symmetry. rewrite <- H. clear H.
    induction ids as [|i rest IH]; cbn [forallb]; [reflexivity|].
    rewrite has_memberb, IH. reflexivity.
Qed.

Lemma create_run entries w :
  forallb (fun e => validGeometry (fst e)) entries = true ->
  create entries w
  = (Ok (seq (nextId w) (List.length entries)),
     emitChange (seq (nextId w) (List.length entries)) ChCreate
       (mkWorld (features w ++ buildFeatures (nextId w) entries)
                (nextId w + List.length entries)%nat
                (onChange w) (callbacks w) (cursor w)
                (spied w ++ [CallCreate entries]))).
Proof.
  intros H. unfold create. rewrite H. cbn [spy nextId features onChange callbacks cursor spied].
  rewrite ids_buildFeatures. reflexivity.
Qed.

End StoreRuns.

(* ================================================================== *)
(** ** Selecting and deselecting *)
(* ================================================================== *)

Lemma bind_run {S A B : Type} (c : M S A) (k : A -> M S B) s a s1 :
  c s = (Ok a, s1) -> bind c k s = k a s1.
Proof. intros H. unfold bind. rewrite H. reflexivity. Qed.

Lemma onStore_run {Mode A : Type} (getBase : Mode -> BaseMode)
  (op : M World A) m w r w' :
  storeDefined (getBase m) = true ->
  op w = (r, w') ->
  onStore getBase op (m, w) = (r, (m, w')).
Proof.
  intros Hreg Hop. unfold onStore. cbn [fst snd]. rewrite Hreg, Hop. reflexivity.
Qed.

Lemma memberb_filter_out i ids l :
  memberb i (filter (fun j => negb (memberb j ids)) l)
  = memberb i l && negb (memberb i ids).
Proof.
  induction l as [|a rest IH]; simpl; [reflexivity|].
  destruct (memberb a ids) eqn:Ea; simpl.
  - rewrite IH. destruct (Nat.eqb i a) eqn:E; simpl; [|reflexivity].
    apply Nat.eqb_eq in E. subst a. rewrite Ea. simpl.
    rewrite andb_false_r. reflexivity.
  - rewrite IH. destruct (Nat.eqb i a) eqn:E; simpl; [|reflexivity].
    apply Nat.eqb_eq in E. subst a. rewrite Ea. reflexivity.
Qed.

Lemma filter_filter_out (a b : list FeatureId) l :
  filter (fun j => negb (memberb j b)) (filter (fun j => negb (memberb j a)) l)
  = filter (fun j => negb (memberb j (a ++ b))) l.
Proof.
  induction l as [|x rest IH]; simpl; [reflexivity|].
  rewrite memberb_app.
  destruct (memberb x a); simpl; [exact IH|].
  destruct (memberb x b); simpl; rewrite IH; reflexivity.
Qed.

(** One step of a run: the head computation returns, the rest goes on. *)
Ltac run_step :=
  erewrite bind_run by reflexivity;
  cbn [fst snd
       SelectMode.base SelectMode.flags SelectMode.allowManualDeselection
       SelectMode.pointerDistance SelectMode.styles SelectMode.selected
       SelectMode.selectionPoints SelectMode.midPoints
       SelectMode.setSelected SelectMode.setSelectionPoints
       SelectMode.setMidPoints].

Section SelectRuns.

Context {kernel : GeometryKernel}.
Variable project : Position -> Q * Q.

Import SelectMode.

Lemma deleteOverlays_run ids (m : TerraDrawSelectMode) w :
  storeDefined (base m) = true ->
  forallb (fun i => memberb i (storeIds w)) ids = true ->
  exists w',
    deleteOverlays ids (m, w) = (Ok tt, (m, w'))
    /\ onChange w' = onChange w ++ batch ids ChDelete
    /\ callbacks w' = callbacks w
    /\ nextId w' = nextId w
    /\ storeIds w' = filter (fun j => negb (memberb j ids)) (storeIds w)
    /\ (forall j, memberb j ids = false ->
                  lookupFeature j (features w') = lookupFeature j (features w))
    /\ spied w' = spied w ++ deleteCalls ids.
Proof.
  intros Hreg Hall. destruct ids as [|i rest].
  - exists w. simpl. rewrite !app_nil_r.
    repeat split; auto.
    unfold storeIds. induction (map fid (features w)) as [|a l IH]; simpl; congruence.
  - eexists. split.
    + unfold deleteOverlays. apply onStore_run; [exact Hreg|].
      apply delete_run. exact Hall.
    + cbn [emitChange setFeatures spy onChange callbacks nextId features batch
           spied deleteCalls].
      repeat split.
      * unfold storeIds. cbn [features]. apply ids_removeAll.
      * intros j Hj. apply lookup_removeAll. exact Hj.
Qed.

(** Deselecting a selected feature whose overlays are in the store. *)
Lemma deselect_run (m : TerraDrawSelectMode) w old :
  storeDefined (base m) = true ->
  selected m = Some old ->
  memberb old (storeIds w) = true ->
  overlaysPresent m w = true ->
  exists w',
    deselect (m, w)
    = (Ok tt, (setMidPoints [] (setSelectionPoints [] (setSelected None m)), w'))
    /\ onChange w'
       = onChange w ++ [([old], ChUpdate)]
           ++ batch (selectionPoints m) ChDelete
           ++ batch (midPoints m) ChDelete
    /\ callbacks w' = callbacks w ++ [OnDeselect old]
    /\ nextId w' = nextId w
    /\ storeIds w'
       = filter (fun j => negb (memberb j (selectionPoints m ++ midPoints m)))
                (storeIds w)
    /\ (forall j, memberb j (selectionPoints m ++ midPoints m) = false ->
          option_map geometry (lookupFeature j (features w'))
          = option_map geometry (lookupFeature j (features w)))
    /\ spied w'
       = spied w ++ [CallUpdateProperty [(old, "selected", JBool false)]]
           ++ deleteCalls (selectionPoints m)
           ++ deleteCalls (midPoints m).
Proof.
  intros Hreg Hsel Hold Hov.
  unfold overlaysPresent in Hov. apply andb_true_iff in Hov.
  destruct Hov as [Hpts Hmids].
  unfold deselect.
  run_step. rewrite Hsel.
  erewrite bind_run
    by (apply onStore_run; [exact Hreg | apply updateProperty_run; exact Hold]).
  run_step. run_step.
  unfold deleteSelectionOverlays.
  run_step.
  match goal with
  | |- context [bind (deleteOverlays ?ids) _ (?mm, ?ww)] =>
      destruct (deleteOverlays_run ids mm ww) as [w2 [E2 [Hc2 [Hb2 [Hn2 [Hi2 [Hl2 Hs2]]]]]]];
        [ exact Hreg
        | unfold storeIds in *;
          cbn [emitCallback emitChange setFeatures spy features];
          rewrite ids_mergeProperty; exact Hpts
        | ]
  end.
  erewrite bind_run by exact E2.
  run_step. run_step.
  match goal with
  | |- context [bind (deleteOverlays ?ids) _ (?mm, ?ww)] =>
      destruct (deleteOverlays_run ids mm ww) as [w3 [E3 [Hc3 [Hb3 [Hn3 [Hi3 [Hl3 Hs3]]]]]]];
        [exact Hreg | |]
  end.
  { rewrite Hi2. unfold storeIds in *. cbn [emitCallback emitChange setFeatures spy features].
    rewrite forallb_forall in Hmids |- *. intros i Hi.
    specialize (Hmids i Hi). apply andb_true_iff in Hmids.
    destruct Hmids as [Hin Hnot].
    rewrite ids_mergeProperty, memberb_filter_out, Hin, Hnot. reflexivity. }
  erewrite bind_run by exact E3.
  exists w3. split; [reflexivity|].
  cbn [emitCallback emitChange setFeatures spy features onChange callbacks nextId
       spied] in *.
  repeat split.
  - rewrite Hc3, Hc2. rewrite <- !app_assoc. reflexivity.
  - rewrite Hb3, Hb2. reflexivity.
  - rewrite Hn3, Hn2. reflexivity.
  - rewrite Hi3, Hi2. unfold storeIds.
    cbn [emitCallback emitChange setFeatures spy features].
    rewrite ids_mergeProperty. apply filter_filter_out.
  - intros j Hj. rewrite memberb_app in Hj. apply orb_false_iff in Hj.
    destruct Hj as [Hj1 Hj2].
    rewrite Hl3 by exact Hj2. rewrite Hl2 by exact Hj1.
    apply geometry_mergeProperty.
  - rewrite Hs3, Hs2. rewrite <- !app_assoc. reflexivity.
Qed.

Lemma createOverlays_run entries (m : TerraDrawSelectMode) w :
  storeDefined (base m) = true ->
  forallb (fun e => validGeometry (fst e)) entries = true ->
  exists w',
    createOverlays entries (m, w)
    = (Ok (seq (nextId w) (List.length entries)), (m, w'))
    /\ onChange w'
       = onChange w ++ batch (seq (nextId w) (List.length entries)) ChCreate
    /\ callbacks w' = callbacks w
    /\ nextId w' = (nextId w + List.length entries)%nat
    /\ storeIds w' = storeIds w ++ seq (nextId w) (List.length entries)
    /\ spied w' = spied w ++ createCalls entries.
Proof.
  intros Hreg Hvalid. destruct entries as [|e rest].
  - exists w. simpl. rewrite !app_nil_r, Nat.add_0_r. repeat split.
  - eexists. split.
    + unfold createOverlays. apply onStore_run; [exact Hreg|].
      apply create_run. exact Hvalid.
    + cbn [emitChange onChange callbacks nextId features spied batch seq List.length].
      repeat split.
      unfold storeIds. cbn [emitChange features].
      rewrite map_app, ids_buildFeatures. reflexivity.
Qed.

Lemma selectionPointEntries_accepted id g :
  (forall c, validGeometry (Point c) = true) ->
  forallb (fun e => validGeometry (fst e)) (selectionPointEntries id g) = true.
Proof.
  intros Hpt. unfold selectionPointEntries.
  apply forallb_forall. intros e He. apply in_map_iff in He.
  destruct He as [ic [He _]]. subst e. apply Hpt.
Qed.

Lemma midPointEntries_accepted id g :
  (forall c, validGeometry (Point c) = true) ->
  forallb (fun e => validGeometry (fst e)) (midPointEntries id g) = true.
Proof.
  intros Hpt. unfold midPointEntries.
  apply forallb_forall. intros e He. apply in_map_iff in He.
  destruct He as [ic [He _]]. subst e. apply Hpt.
Qed.

(** The selection-point and midpoint entries [select] hands to the store
    for a feature of geometry [g] under the flags [fl]. *)
Lemma select_run (m : TerraDrawSelectMode) w id fl f :
  storeDefined (base m) = true ->
  lookupFeature id (features w) = Some f ->
  (forall c, validGeometry (Point c) = true) ->
  selectionPoints m = [] ->
  midPoints m = [] ->
  forall pe me,
    pe = match coordinates fl with
         | Some _ => selectionPointEntries id (geometry f)
         | None => []
         end ->
    me = match coordinates fl with
         | Some cf => if midpoints cf then midPointEntries id (geometry f) else []
         | None => []
         end ->
    exists w',
      select id fl (m, w)
      = (Ok tt,
         (setMidPoints (seq (nextId w + List.length pe) (List.length me))
            (setSelectionPoints (seq (nextId w) (List.length pe))
               (setSelected (Some id) m)), w'))
      /\ onChange w'
         = onChange w ++ [([id], ChUpdate)]
             ++ batch (seq (nextId w) (List.length pe)) ChCreate
             ++ batch (seq (nextId w + List.length pe) (List.length me)) ChCreate
      /\ callbacks w' = callbacks w ++ [OnSelect id]
      /\ storeIds w'
         = storeIds w ++ seq (nextId w) (List.length pe)
             ++ seq (nextId w + List.length pe) (List.length me)
      /\ spied w'
         = spied w ++ [CallUpdateProperty [(id, "selected", JBool true)]]
             ++ createCalls pe ++ createCalls me.
Proof.
  intros Hreg Hf Hpt Hnopts Hnomids pe me Hpe Hme.
  assert (Hmem : memberb id (storeIds w) = true)
    by (eapply lookup_some_member; exact Hf).
  assert (Hidle : forall a b, setMidPoints a (setSelectionPoints b (setSelected (Some id) m))
                  = mk (base m) (flags m) (allowManualDeselection m)
                       (pointerDistance m) (styles m) (Some id) b a)
    by reflexivity.
  unfold select.
  run_step.
  erewrite bind_run
    by (apply onStore_run; [exact Hreg | apply updateProperty_run; exact Hmem]).
  run_step.
  destruct (coordinates fl) as [cf|] eqn:Hcf.
  - unfold createSelectionOverlays, getGeometryCopy.
    pose proof (geometry_mergeProperty id "selected" (JBool true) id (features w)) as Hg.
    rewrite Hf in Hg. cbn [option_map] in Hg.
    match type of Hg with
    | option_map geometry ?l = _ => destruct l as [f1|] eqn:Hf1; [|discriminate]
    end.
    cbn [option_map] in Hg. injection Hg as Hg.
    erewrite bind_run.
    2:{ apply onStore_run; [exact Hreg|].
        cbn [emitCallback emitChange setFeatures spy features].
        rewrite Hf1. reflexivity. }
    rewrite Hg, <- Hpe.
    match goal with
    | |- context [bind (createOverlays ?es) _ (?mm, ?ww)] =>
        destruct (createOverlays_run es mm ww) as [w2 [E2 [Hc2 [Hb2 [Hn2 [Hi2 Hs2]]]]]];
          [ exact Hreg
          | subst pe; apply selectionPointEntries_accepted; exact Hpt
          | ]
    end.
    erewrite bind_run by exact E2.
    run_step.
    cbn [emitCallback emitChange setFeatures spy features onChange callbacks
         nextId spied] in *.
    destruct (midpoints cf) eqn:Hmid.
    + rewrite <- Hme.
      match goal with
      | |- context [bind (createOverlays ?es) _ (?mm, ?ww)] =>
          destruct (createOverlays_run es mm ww) as [w3 [E3 [Hc3 [Hb3 [Hn3 [Hi3 Hs3]]]]]];
            [ exact Hreg
            | subst me; apply midPointEntries_accepted; exact Hpt
            | ]
      end.
      erewrite bind_run by exact E3.
      exists w3. rewrite Hn2. split; [reflexivity|].
      repeat split.
      * rewrite Hc3, Hc2, Hn2. rewrite <- !app_assoc. reflexivity.
      * rewrite Hb3, Hb2. reflexivity.
      * rewrite Hi3, Hi2, Hn2. unfold storeIds.
        cbn [emitCallback emitChange setFeatures spy features].
        rewrite ids_mergeProperty, <- !app_assoc. reflexivity.
      * rewrite Hs3, Hs2. rewrite <- !app_assoc. reflexivity.
    + subst me. exists w2. unfold ret. cbn [List.length seq].
      split; [clear - Hnomids; destruct m; cbn in *; subst; reflexivity|].
      repeat split.
      * rewrite Hc2. cbn [batch]. rewrite app_nil_r, <- !app_assoc. reflexivity.
      * rewrite Hb2. reflexivity.
      * rewrite Hi2. unfold storeIds.
        cbn [emitCallback emitChange setFeatures spy features].
        rewrite ids_mergeProperty, app_nil_r. reflexivity.
      * rewrite Hs2. rewrite app_nil_r, <- !app_assoc. reflexivity.
  - subst pe me. unfold ret. cbn [List.length seq].
    eexists.
    split; [clear - Hnomids Hnopts; destruct m; cbn in *; subst; reflexivity|].
    cbn [emitCallback emitChange setFeatures spy features onChange callbacks
         nextId spied batch].
    repeat split;
      unfold storeIds; cbn [emitCallback emitChange setFeatures spy features];
      rewrite ?ids_mergeProperty, ?app_nil_r; reflexivity.
Qed.

End SelectRuns.

(* ================================================================== *)
(** ** Clicks in select mode *)
(* ================================================================== *)

Section SelectProperties.

Context {kernel : GeometryKernel}.
Variable project : Position -> Q * Q.

Import SelectMode.

(** A left click that gets past the overlay tests is decided by the
    feature under the cursor (§4.E.1, steps 4 to 6). *)
Lemma left_click_past_overlays (m : TerraDrawSelectMode) w e :
  storeDefined (base m) = true ->
  button e = LeftButton ->
  reachesFeatureTest project m e w = true ->
  onClick project e (m, w)
  = match clickedFeature project m e w with
    | Some (f, fl) =>
        if match selected m with
           | Some id => Nat.eqb id (fid f)
           | None => false
           end
        then (Ok tt, (m, w))
        else (deselect ;; select (fid f) fl) (m, w)
    | None =>
        if allowManualDeselection m then deselect (m, w) else (Ok tt, (m, w))
    end.
Proof.
  intros Hreg Hleft Hreach.
  unfold reachesFeatureTest in Hreach.
  destruct (overlayHit project m e w (selectionPoints m)) eqn:H1; [discriminate|].
  destruct (overlayHit project m e w (midPoints m)) eqn:H2; [discriminate|].
  unfold onClick. run_step. rewrite Hreg. cbn [negb]. rewrite Hleft.
  unfold onLeftClick. run_step. run_step.
  rewrite H1, H2.
  destruct (selected m) as [old|];
    destruct (clickedFeature project m e w) as [[f fl]|];
    try reflexivity.
  - destruct (Nat.eqb old (fid f)); reflexivity.
  - destruct (allowManualDeselection m); reflexivity.
  - destruct (allowManualDeselection m); reflexivity.
Qed.

(** C4: a right click on a vertex of the selected polygon, with
    [coordinates.deletable] set, whose removal would leave a ring of
    fewer than four coordinates or a self-intersecting ring, returns
    without effect: no store method is called, the store and the mode are
    as before, nothing is notified. *)
Theorem invalid_vertex_delete_is_suppressed :
  forall (m : TerraDrawSelectMode) (w : World) (e : TerraDrawMouseEvent)
         (id : FeatureId) (cf : CoordinateFlags) (k : nat)
         (ring : list Position) (holes : list (list Position)),
    storeDefined (base m) = true ->
    button e = RightButton ->
    rightClickTarget project m e w = Some (id, cf, k, Polygon (ring :: holes)) ->
    ((List.length (removeRingVertex k ring) < 4)%nat
     \/ selfIntersects (removeRingVertex k ring) = true) ->
    selected m = Some id
    /\ deletable cf = true
    /\ onClick project e (m, w) = (Ok tt, (m, w)).
Proof.
  intros m w e id cf k ring holes Hreg Hright Htarget Hbad.
  assert (Hinvalid : ringValid (removeRingVertex k ring) = false).
  { unfold ringValid. destruct Hbad as [Hshort | Hcross].
    - apply Nat.leb_gt in Hshort. rewrite Hshort. reflexivity.
    - rewrite Hcross. rewrite andb_false_r. reflexivity. }
  assert (Hinv : selected m = Some id /\ deletable cf = true).
  { unfold rightClickTarget in Htarget.
    repeat match type of Htarget with
    | match ?x with _ => _ end = Some _ => destruct x eqn:?; try discriminate
    | (if ?x then _ else _) = Some _ => destruct x eqn:?; try discriminate
    end.
    inversion Htarget; subst. split; [reflexivity | assumption]. }
  destruct Hinv as [Hsel Hdel].
  split; [exact Hsel | split; [exact Hdel|]].
  unfold onClick. run_step. rewrite Hreg. cbn [negb]. rewrite Hright.
  unfold onRightClick. run_step. run_step.
  rewrite Htarget. unfold deleteVertex. rewrite Hinvalid. reflexivity.
Qed.

(** C6: with a feature selected, a left click that reaches the feature
    test and finds no selectable feature under the cursor is a no-op when
    [allowManualDeselection] is false (selection retained, no onDeselect);
    when it is true, which is the default of the constructor, the feature
    is deselected and onDeselect fires once, for that feature. *)
Theorem click_on_blank_map :
  (forall fl distance st,
      allowManualDeselection (new fl None distance st) = true)
  /\
  (forall (m : TerraDrawSelectMode) (w : World) (e : TerraDrawMouseEvent)
          (old : FeatureId),
      storeDefined (base m) = true ->
      button e = LeftButton ->
      selected m = Some old ->
      reachesFeatureTest project m e w = true ->
      clickedFeature project m e w = None ->
      (allowManualDeselection m = false ->
       onClick project e (m, w) = (Ok tt, (m, w)))
      /\
      (allowManualDeselection m = true ->
       memberb old (storeIds w) = true ->
       overlaysPresent m w = true ->
       exists m' w',
         onClick project e (m, w) = (Ok tt, (m', w'))
         /\ selected m' = None
         /\ selectionPoints m' = []
         /\ midPoints m' = []
         /\ callbacks w' = callbacks w ++ [OnDeselect old]
         /\ onChange w'
            = onChange w ++ [([old], ChUpdate)]
                ++ batch (selectionPoints m) ChDelete
                ++ batch (midPoints m) ChDelete)).
Proof.
  split; [reflexivity|].
  intros m w e old Hreg Hleft Hsel Hreach Hmiss.
  rewrite (left_click_past_overlays m w e Hreg Hleft Hreach), Hmiss.
  split.
  - intros Hoff. rewrite Hoff. reflexivity.
  - intros Hon Hold Hov. rewrite Hon.
    destruct (deselect_run m w old Hreg Hsel Hold Hov)
      as [w' [Hrun [Hch [Hcb _]]]].
    eexists. exists w'. split; [exact Hrun|].
    repeat split; assumption.
Qed.



Lemma length_removelast {A : Type} (l : list A) :
  List.length (removelast l) = (List.length l - 1)%nat.
Proof.
  induction l as [|a rest IH]; [reflexivity|].
  destruct rest as [|b rest']; [reflexivity|].
  change (removelast (a :: b :: rest')) with (a :: removelast (b :: rest')).
  cbn [List.length] in *. rewrite IH. lia.
Qed.

Lemma length_segments (cs : list Position) :
  List.length (segments cs) = (List.length cs - 1)%nat.
Proof.
  induction cs as [|a rest IH]; [reflexivity|].
  destruct rest as [|b rest']; [reflexivity|].
  change (segments (a :: b :: rest')) with ((a, b) :: segments (b :: rest')).
  cbn [List.length] in *. rewrite IH. lia.
Qed.

Lemma length_indexed {A : Type} (from : Z) (l : list A) :
  List.length (indexed from l) = List.length l.
Proof.
  revert from. induction l as [|a rest IH]; intros from; simpl; congruence.
Qed.

Lemma map_snd_indexed {A : Type} (from : Z) (l : list A) :
  map snd (indexed from l) = l.
Proof.
  revert from. induction l as [|a rest IH]; intros from; simpl; congruence.
Qed.

Lemma filter_none (p : FeatureId -> bool) l :
  (forall x, In x l -> p x = false) -> filter p l = [].
Proof.
  induction l as [|a rest IH]; intros H; simpl; [reflexivity|].
  rewrite (H a) by (left; reflexivity). apply IH.
  intros x Hx. apply H. right. exact Hx.
Qed.

Lemma filter_all (p : FeatureId -> bool) l :
  (forall x, In x l -> p x = true) -> filter p l = l.
Proof.
  induction l as [|a rest IH]; intros H; simpl; [reflexivity|].
  rewrite (H a) by (left; reflexivity). f_equal. apply IH.
  intros x Hx. apply H. right. exact Hx.
Qed.

(** Dropping the freshly created overlays from the store gives back the
    ids that were there before, when the id counter is ahead of them. *)
Lemma filter_out_fresh ids a n1 n2 :
  forallb (fun i => Nat.ltb i a) ids = true ->
  filter (fun j => negb (memberb j (seq a n1 ++ seq (a + n1) n2)))
         (ids ++ seq a n1 ++ seq (a + n1) n2)
  = ids.
Proof.
  intros Hfresh. rewrite filter_app.
  rewrite filter_all, filter_none.
  - apply app_nil_r.
  - intros x Hx. apply negb_false_iff. apply memberb_In. exact Hx.
  - intros x Hx. rewrite forallb_forall in Hfresh.
    specialize (Hfresh x Hx). apply Nat.ltb_lt in Hfresh.
    apply negb_true_iff. apply memberb_false. intros Hin.
    apply in_app_or in Hin. destruct Hin as [Hin|Hin];
      apply in_seq in Hin; lia.
Qed.

(** C9: selecting a polygon under coordinate flags creates, in one store
    call each, one selection point per coordinate of the outer ring except
    the closing one, placed on those coordinates in order, and, with the
    midpoints flag, as many
    midpoints, so a ring of five coordinates (a square) gets four and four.
    Deselecting then deletes exactly the overlays created, and the store
    holds the ids it held before the selection. *)
Theorem polygon_selection_overlays :
  forall (m : TerraDrawSelectMode) (w : World) (id : FeatureId) (f : Feature)
         (fl : FeatureFlags) (cf : CoordinateFlags)
         (ring : list Position) (holes : list (list Position)),
    storeDefined (base m) = true ->
    selectionPoints m = [] ->
    midPoints m = [] ->
    lookupFeature id (features w) = Some f ->
    geometry f = Polygon (ring :: holes) ->
    coordinates fl = Some cf ->
    (forall c, validGeometry (Point c) = true) ->
    forallb (fun i => Nat.ltb i (nextId w)) (storeIds w) = true ->
    let n := (List.length ring - 1)%nat in
    map fst (selectionPointEntries id (geometry f)) = map Point (removelast ring)
    /\ exists m1 w1,
         select id fl (m, w) = (Ok tt, (m1, w1))
         /\ selected m1 = Some id
         /\ List.length (selectionPoints m1) = n
         /\ List.length (midPoints m1) = (if midpoints cf then n else 0%nat)
         /\ onChange w1
            = onChange w ++ [([id], ChUpdate)]
                ++ batch (selectionPoints m1) ChCreate
                ++ batch (midPoints m1) ChCreate
         /\ storeIds w1 = storeIds w ++ selectionPoints m1 ++ midPoints m1
         /\ spied w1
            = spied w ++ [CallUpdateProperty [(id, "selected", JBool true)]]
                ++ createCalls (selectionPointEntries id (geometry f))
                ++ createCalls (if midpoints cf
                                then midPointEntries id (geometry f) else [])
         /\ exists m2 w2,
              deselect (m1, w1) = (Ok tt, (m2, w2))
              /\ selected m2 = None
              /\ selectionPoints m2 = []
              /\ midPoints m2 = []
              /\ onChange w2
                 = onChange w1 ++ [([id], ChUpdate)]
                     ++ batch (selectionPoints m1) ChDelete
                     ++ batch (midPoints m1) ChDelete
              /\ storeIds w2 = storeIds w.
Proof.
  intros m w id f fl cf ring holes Hreg Hnopts Hnomids Hf Hgeo Hcf Hpt Hfresh n.
  split.
  - rewrite Hgeo. unfold selectionPointEntries. cbn [selectionCoordinates].
    rewrite map_map. cbn [fst].
    rewrite <- (map_snd_indexed 0 (removelast ring)) at 2.
    rewrite map_map. reflexivity.
  - destruct (select_run m w id fl f Hreg Hf Hpt Hnopts Hnomids _ _ eq_refl eq_refl)
      as [w1 [Hrun1 [Hch1 [Hcb1 [Hids1 Hsp1]]]]].
    rewrite Hcf in *.
    assert (Hlen1 : List.length (selectionPointEntries id (geometry f)) = n).
    { rewrite Hgeo. unfold selectionPointEntries. cbn [selectionCoordinates].
      rewrite length_map, length_indexed. apply length_removelast. }
    assert (Hlen2 : List.length (if midpoints cf
                                 then midPointEntries id (geometry f) else [])
                    = if midpoints cf then n else 0%nat).
    { destruct (midpoints cf); [|reflexivity].
      rewrite Hgeo. unfold midPointEntries. cbn [segmentsOf].
      rewrite length_map, length_indexed. apply length_segments. }
    eexists. exists w1. split; [exact Hrun1|].
    cbn [selected selectionPoints midPoints setMidPoints setSelectionPoints setSelected].
    rewrite !length_seq.
    split; [reflexivity|]. split; [exact Hlen1|]. split; [exact Hlen2|].
    split; [exact Hch1|]. split; [exact Hids1|]. split; [exact Hsp1|].
    match type of Hrun1 with
    | _ = (_, (?m1, _)) =>
        destruct (deselect_run m1 w1 id) as [w2 [Hrun2 [Hch2 [Hcb2 [Hn2 [Hids2 _]]]]]]
    end.
    + exact Hreg.
    + reflexivity.
    + rewrite Hids1, memberb_app. apply orb_true_iff. left.
      eapply lookup_some_member. exact Hf.
    + unfold overlaysPresent.
      cbn [selected selectionPoints midPoints setMidPoints setSelectionPoints setSelected].
      rewrite Hids1. apply andb_true_iff. split; apply forallb_forall; intros i Hi.
      * rewrite !memberb_app. apply memberb_In in Hi. rewrite Hi.
        rewrite orb_true_r. reflexivity.
      * apply andb_true_iff. split.
        -- rewrite !memberb_app. apply memberb_In in Hi. rewrite Hi.
           rewrite !orb_true_r. reflexivity.
        -- apply negb_true_iff. apply memberb_false. intros Hin.
           apply in_seq in Hi. apply in_seq in Hin. lia.
    + eexists. exists w2. split; [exact Hrun2|].
      cbn [selected selectionPoints midPoints setMidPoints setSelectionPoints
           setSelected] in *.
      split; [reflexivity|]. split; [reflexivity|]. split; [reflexivity|].
      split; [exact Hch2|].
      rewrite Hids2, Hids1. apply filter_out_fresh. exact Hfresh.
Qed.

End SelectProperties.

(* ================================================================== *)
(** ** The scenarios, run *)
(* ================================================================== *)

Section ScenarioRuns.

Import PlanarKernel Scenarios.

(** The second click of the circle scenario returns the mode to Idle and
    emits nothing: there is no onFinish among the callbacks. *)
Lemma circle_second_click_emits_no_onFinish :
  CircleMode.clickCount (fst circleSized) = 1
  /\ CircleMode.onClick (cursorAt 0 0 LeftButton) circleSized = (Ok tt, circleFinished)
  /\ callbacks (snd circleFinished) = []
  /\ ~ (exists id, In (OnFinish id) (callbacks (snd circleFinished))).
Proof.
  vm_compute. repeat split. intros [id []].
Qed.

Lemma circle_second_click_witness :
  CircleMode.clickCount (fst circleDraft) <> 0
  /\ exists m',
      CircleMode.onClick (cursorAt 0 0 LeftButton) (fst circleDraft, snd circleDraft)
      = (Ok tt, (m', snd circleDraft))
      /\ CircleMode.center m' = None
      /\ CircleMode.currentCircleId m' = None
      /\ CircleMode.clickCount m' = 0
      /\ CircleMode.base m' = CircleMode.base (fst circleDraft).
Proof.
  assert (H : CircleMode.clickCount (fst circleDraft) <> 0)
    by (vm_compute; discriminate).
  split; [exact H|].
  exact (circle_second_click_finalizes (fst circleDraft) (snd circleDraft)
           (cursorAt 0 0 LeftButton) H).
Defined.



(** Handlers of an unregistered circle mode other than [onClick] return
    normally. *)
Lemma circle_handlers_before_register_return :
  CircleMode.state (CircleMode.new None) = "unregistered"
  /\ CircleMode.onDrag (CircleMode.new None, emptyWorld)
     = (Ok tt, (CircleMode.new None, emptyWorld))
  /\ CircleMode.onMouseMove (cursorAt 0 0 LeftButton) (CircleMode.new None, emptyWorld)
     = (Ok tt, (CircleMode.new None, emptyWorld))
  /\ fst (CircleMode.onDrag (CircleMode.new None, emptyWorld)) <> Throw NotRegistered.
Proof.
  vm_compute. repeat split. discriminate.
Qed.

Lemma calls_before_register_witness :
  CircleMode.base (CircleMode.new None) = newBase
  /\ CircleMode.start (CircleMode.new None, emptyWorld)
     = (Throw NotRegistered, (CircleMode.new None, emptyWorld))
  /\ CircleMode.stop (CircleMode.new None, emptyWorld)
     = (Throw NotRegistered, (CircleMode.new None, emptyWorld))
  /\ PointMode.onClick (cursorAt 0 0 LeftButton) (PointMode.new, emptyWorld)
     = (Throw NotRegistered, (PointMode.new, emptyWorld)).
Proof.
  destruct (calls_before_register project)
    as [Hc [_ [_ [_ [_ [_ [Hp _]]]]]]].
  assert (H : CircleMode.base (CircleMode.new None) = newBase) by reflexivity.
  split; [exact H|].
  split; [exact (proj1 (Hc _ emptyWorld H))|].
  split; [exact (proj2 (Hc _ emptyWorld H))|].
  exact (Hp PointMode.new emptyWorld (cursorAt 0 0 LeftButton) eq_refl).
Defined.

(** A mouse-move to where the cursor already is issues its update and
    leaves the coordinates of the draft as they were. *)
Lemma circle_mouse_move_can_leave_coordinates :
  CircleMode.clickCount (fst circleSized) = 1
  /\ fst (CircleMode.onMouseMove (cursorAt 1 1 LeftButton) circleSized) = Ok tt
  /\ map geometry
       (features
          (snd (snd (CircleMode.onMouseMove (cursorAt 1 1 LeftButton) circleSized))))
     = map geometry (features (snd circleSized)).
Proof.
  vm_compute. repeat split.
Qed.

Lemma circle_mouse_move_witness :
  (CircleMode.clickCount (fst circleDraft) = 1
   /\ exists r w',
       CircleMode.onMouseMove (cursorAt 1 1 LeftButton)
         (fst circleDraft, snd circleDraft)
       = (r, (fst circleDraft, w'))
       /\ r = Ok tt
       /\ option_map geometry (lookupFeature 0%nat (features w'))
          = Some (circle (0%Q, 0%Q)
                    (haversineDistanceKilometers (0%Q, 0%Q) (1%Q, 1%Q))))
  /\ (CircleMode.clickCount (CircleMode.new None) <> 1
      /\ CircleMode.onMouseMove (cursorAt 1 1 LeftButton)
           (CircleMode.new None, emptyWorld)
         = (Ok tt, (CircleMode.new None, emptyWorld))).
Proof.
  destruct circle_mouse_move_updates_draft as [Hdraft Hidle].
  assert (H1 : CircleMode.clickCount (fst circleDraft) = 1) by reflexivity.
  assert (H2 : CircleMode.clickCount (CircleMode.new None) <> 1)
    by (vm_compute; discriminate).
  split; split.
  - exact H1.
  - destruct (Hdraft (fst circleDraft) (snd circleDraft)
                (cursorAt 1 1 LeftButton) (0%Q, 0%Q) 0%nat
                H1 eq_refl eq_refl eq_refl)
      as [r [w' [Hrun [_ Hstore]]]].
    destruct (Hstore eq_refl eq_refl) as [Hr [_ [Hg _]]].
    exists r, w'. split; [exact Hrun|]. split; [exact Hr | exact Hg].
  - exact H2.
  - exact (Hidle _ emptyWorld (cursorAt 1 1 LeftButton) H2).
Defined.

Lemma circle_cleanUp_witness :
  CircleMode.currentCircleId (CircleMode.new None) = None
  /\ exists w',
      CircleMode.cleanUp (CircleMode.new None, emptyWorld)
      = (Ok tt, (CircleMode.new None, w'))
      /\ features w' = [] /\ onChange w' = [].
Proof.
  assert (H : CircleMode.currentCircleId (CircleMode.new None) = None)
    by reflexivity.
  split; [exact H|].
  destruct (circle_cleanUp_never_throws (CircleMode.new None) emptyWorld)
    as [w' [Hrun Hquiet]].
  destruct (Hquiet H) as [_ [Hf [Hc _]]].
  exists w'. split; [exact Hrun|]. split; [exact Hf | exact Hc].
Defined.

Lemma styleFeature_witness :
  (SelectMode.getStyling "polygonFillColor"
     (SelectMode.styleFeature defaultStyling SelectMode.selectedPolygonRules
        (SelectMode.new [] None None selectedPolygonStyles)
        selectedPolygonFeature)
   = Some (SelectMode.SHex "#222222")
   /\ SelectMode.getStyling "polygonOutlineColor"
        (SelectMode.styleFeature defaultStyling SelectMode.selectedPolygonRules
           (SelectMode.new [] None None selectedPolygonStyles)
           selectedPolygonFeature)
      = Some (SelectMode.SHex "#111111")
   /\ SelectMode.getStyling "polygonOutlineWidth"
        (SelectMode.styleFeature defaultStyling SelectMode.selectedPolygonRules
           (SelectMode.new [] None None selectedPolygonStyles)
           selectedPolygonFeature)
      = Some (SelectMode.SNum 4)
   /\ SelectMode.getStyling "polygonFillOpacity"
        (SelectMode.styleFeature defaultStyling SelectMode.selectedPolygonRules
           (SelectMode.new [] None None selectedPolygonStyles)
           selectedPolygonFeature)
      = Some (SelectMode.SNum 1))
  /\ (SelectMode.getStyling "polygonFillColor"
        (SelectMode.styleFeature defaultStyling SelectMode.selectedPolygonRules
           (SelectMode.new [] None None selectedPolygonStyles)
           unselectedPolygonFeature)
      = Some (SelectMode.SHex "#3f97e0")
      /\ SelectMode.getStyling "polygonFillOpacity"
           (SelectMode.styleFeature defaultStyling SelectMode.selectedPolygonRules
              (SelectMode.new [] None None selectedPolygonStyles)
              unselectedPolygonFeature)
         = Some (SelectMode.SNum 0.3)
      /\ SelectMode.getStyling "polygonOutlineColor"
           (SelectMode.styleFeature defaultStyling SelectMode.selectedPolygonRules
              (SelectMode.new [] None None selectedPolygonStyles)
              unselectedPolygonFeature)
         = Some (SelectMode.SHex "#3f97e0"))
  /\ SelectMode.getStyling "polygonFillOpacity"
       (SelectMode.styleFeature defaultStyling SelectMode.selectedPolygonRules
          (SelectMode.new [] None None
             [("selectedPolygonColor",
               SelectMode.Literal (SelectMode.SHex "#222222"))])
          selectedPolygonFeature)
     = Some (SelectMode.SNum 0.3).
Proof.
  pose proof (styleFeature_literal_or_function defaultStyling
                SelectMode.selectedPolygonRules)
    as [_ [_ [Hset Hkept]]].
  assert (Hone : forall k out,
             In (k, out, SelectMode.isSelectedPolygon)
                SelectMode.selectedPolygonRules ->
             forall k' applies',
               In (k', out, applies') SelectMode.selectedPolygonRules ->
               applies' selectedPolygonFeature = true -> k' = k).
  { intros k out Hin k' applies' Hin' _. simpl in Hin, Hin'.
    repeat match goal with
           | H : _ \/ _ |- _ => destruct H
           | H : False |- _ => destruct H
           | H : (_, _, _) = (_, _, _) |- _ => inversion H; clear H; subst
           end;
      first [reflexivity | discriminate]. }
  assert (Hoff : forall m out k applies,
             In (k, out, applies) SelectMode.selectedPolygonRules ->
             applies unselectedPolygonFeature = true ->
             SelectMode.lookupStyle k (SelectMode.styles m) = None).
  { intros m out k applies Hin Hap. simpl in Hin.
    repeat match goal with
           | H : _ \/ _ |- _ => destruct H
           | H : False |- _ => destruct H
           | H : (_, _, _) = (_, _, _) |- _ => inversion H; clear H; subst
           end;
      discriminate Hap. }
  split; [|split].
  - split; [|split; [|split]].
    + apply (Hset _ selectedPolygonFeature "selectedPolygonColor" _
               SelectMode.isSelectedPolygon
               (SelectMode.Computed (fun _ => SelectMode.SHex "#222222")));
        [simpl; auto | reflexivity | reflexivity | apply Hone; simpl; auto].
    + apply (Hset _ selectedPolygonFeature "selectedPolygonOutlineColor" _
               SelectMode.isSelectedPolygon
               (SelectMode.Computed (fun _ => SelectMode.SHex "#111111")));
        [simpl; auto | reflexivity | reflexivity | apply Hone; simpl; auto].
    + apply (Hset _ selectedPolygonFeature "selectedPolygonOutlineWidth" _
               SelectMode.isSelectedPolygon
               (SelectMode.Computed (fun _ => SelectMode.SNum 4)));
        [simpl; auto | reflexivity | reflexivity | apply Hone; simpl; auto].
    + apply (Hset _ selectedPolygonFeature "selectedPolygonFillOpacity" _
               SelectMode.isSelectedPolygon
               (SelectMode.Computed (fun _ => SelectMode.SNum 1)));
        [simpl; auto | reflexivity | reflexivity | apply Hone; simpl; auto].
  - split; [|split].
    + apply (Hkept _ unselectedPolygonFeature "polygonFillColor").
      apply Hoff.
    + apply (Hkept _ unselectedPolygonFeature "polygonFillOpacity").
      apply Hoff.
    + apply (Hkept _ unselectedPolygonFeature "polygonOutlineColor").
      apply Hoff.
  - apply (Hkept _ selectedPolygonFeature "polygonFillOpacity").
    intros k applies Hin _. simpl in Hin.
    repeat match goal with
           | H : _ \/ _ |- _ => destruct H
           | H : False |- _ => destruct H
           | H : (_, _, _) = (_, _, _) |- _ => inversion H; clear H; subst
           end.
    reflexivity.
Defined.


Lemma invalid_vertex_delete_witness :
  (storeDefined (SelectMode.base (fst triangleSelected)) = true
   /\ SelectMode.rightClickTarget project (fst triangleSelected)
        (cursorAt 0 0 RightButton) (snd triangleSelected)
      = Some (0%nat, allCoordinateFlags, 0%nat, triangle)
   /\ (List.length
         (SelectMode.removeRingVertex 0
            [(0%Q, 0%Q); (0%Q, 1%Q); (1%Q, 1%Q); (0%Q, 0%Q)]) < 4)%nat)
  /\ SelectMode.onClick project (cursorAt 0 0 RightButton)
       (fst triangleSelected, snd triangleSelected)
     = (Ok tt, (fst triangleSelected, snd triangleSelected)).
Proof.
  assert (H1 : storeDefined (SelectMode.base (fst triangleSelected)) = true)
    by reflexivity.
  assert (H2 : SelectMode.rightClickTarget project (fst triangleSelected)
                 (cursorAt 0 0 RightButton) (snd triangleSelected)
               = Some (0%nat, allCoordinateFlags, 0%nat, triangle))
    by (vm_compute; reflexivity).
  assert (H3 : (List.length
                  (SelectMode.removeRingVertex 0
                     [(0%Q, 0%Q); (0%Q, 1%Q); (1%Q, 1%Q); (0%Q, 0%Q)]) < 4)%nat)
    by (simpl; lia).
  split; [repeat split; assumption|].
  exact (proj2 (proj2
           (invalid_vertex_delete_is_suppressed project
              (fst triangleSelected) (snd triangleSelected)
              (cursorAt 0 0 RightButton) 0%nat allCoordinateFlags 0%nat
              [(0%Q, 0%Q); (0%Q, 1%Q); (1%Q, 1%Q); (0%Q, 0%Q)] []
              H1 eq_refl H2 (or_introl H3)))).
Defined.

Lemma click_on_blank_map_witness :
  (SelectMode.allowManualDeselection (fst (firstSelected (Some false))) = false
   /\ SelectMode.clickedFeature project (fst (firstSelected (Some false)))
        (cursorAt 59 59 LeftButton) (snd (firstSelected (Some false))) = None
   /\ SelectMode.onClick project (cursorAt 59 59 LeftButton)
        (fst (firstSelected (Some false)), snd (firstSelected (Some false)))
      = (Ok tt, (fst (firstSelected (Some false)), snd (firstSelected (Some false)))))
  /\ (SelectMode.allowManualDeselection (fst (firstSelected None)) = true
      /\ SelectMode.clickedFeature project (fst (firstSelected None))
           (cursorAt 59 59 LeftButton) (snd (firstSelected None)) = None
      /\ exists m' w',
          SelectMode.onClick project (cursorAt 59 59 LeftButton)
            (fst (firstSelected None), snd (firstSelected None))
          = (Ok tt, (m', w'))
          /\ SelectMode.selected m' = None
          /\ callbacks w' = [OnSelect 0%nat; OnDeselect 0%nat]).
Proof.
  destruct (click_on_blank_map project) as [_ Hclick].
  assert (Hoff : SelectMode.allowManualDeselection (fst (firstSelected (Some false)))
                 = false) by reflexivity.
  assert (Hmiss1 : SelectMode.clickedFeature project (fst (firstSelected (Some false)))
                     (cursorAt 59 59 LeftButton) (snd (firstSelected (Some false)))
                   = None) by (vm_compute; reflexivity).
  assert (Hon : SelectMode.allowManualDeselection (fst (firstSelected None)) = true)
    by reflexivity.
  assert (Hmiss2 : SelectMode.clickedFeature project (fst (firstSelected None))
                     (cursorAt 59 59 LeftButton) (snd (firstSelected None))
                   = None) by (vm_compute; reflexivity).
  split.
  - split; [exact Hoff|]. split; [exact Hmiss1|].
    exact (proj1 (Hclick (fst (firstSelected (Some false)))
                    (snd (firstSelected (Some false)))
                    (cursorAt 59 59 LeftButton) 0%nat
                    eq_refl eq_refl eq_refl eq_refl Hmiss1) Hoff).
  - split; [exact Hon|]. split; [exact Hmiss2|].
    destruct (proj2 (Hclick (fst (firstSelected None)) (snd (firstSelected None))
                       (cursorAt 59 59 LeftButton) 0%nat
                       eq_refl eq_refl eq_refl eq_refl Hmiss2)
                Hon eq_refl eq_refl)
      as [m' [w' [Hrun [Hsel [_ [_ [Hcb _]]]]]]].
    exists m', w'. split; [exact Hrun|]. split; [exact Hsel | exact Hcb].
Defined.

Lemma polygon_selection_overlays_witness :
  (lookupFeature 0%nat (features (snd (selectRegistered None)))
   = Some (mkFeature 0%nat (square 0) [("mode", JStr "polygon")])
   /\ forallb (fun i => Nat.ltb i (nextId (snd (selectRegistered None))))
        (storeIds (snd (selectRegistered None))) = true)
  /\ exists m1 w1,
      SelectMode.select 0%nat
        (SelectMode.mkFeatureFlags false (Some allCoordinateFlags))
        (fst (selectRegistered None), snd (selectRegistered None))
      = (Ok tt, (m1, w1))
      /\ List.length (SelectMode.selectionPoints m1) = 4%nat
      /\ List.length (SelectMode.midPoints m1) = 4%nat
      /\ exists m2 w2,
           SelectMode.deselect (m1, w1) = (Ok tt, (m2, w2))
           /\ onChange w2
              = onChange w1 ++ [([0%nat], ChUpdate)]
                  ++ batch (SelectMode.selectionPoints m1) ChDelete
                  ++ batch (SelectMode.midPoints m1) ChDelete
           /\ storeIds w2 = [0; 1]%nat.
Proof.
  assert (H1 : lookupFeature 0%nat (features (snd (selectRegistered None)))
               = Some (mkFeature 0%nat (square 0) [("mode", JStr "polygon")]))
    by (vm_compute; reflexivity).
  assert (H2 : forallb (fun i => Nat.ltb i (nextId (snd (selectRegistered None))))
                 (storeIds (snd (selectRegistered None))) = true)
    by (vm_compute; reflexivity).
  split; [split; assumption|].
  destruct (polygon_selection_overlays (kernel := PlanarKernel.kernel)
              (fst (selectRegistered None)) (snd (selectRegistered None)) 0%nat
              (mkFeature 0%nat (square 0) [("mode", JStr "polygon")])
              (SelectMode.mkFeatureFlags false (Some allCoordinateFlags))
              allCoordinateFlags
              [(0%Q, 0%Q); (0%Q, (0 + 1)%Q); ((0 + 1)%Q, (0 + 1)%Q);
               ((0 + 1)%Q, 0%Q); (0%Q, 0%Q)] []
              eq_refl eq_refl eq_refl H1 eq_refl eq_refl (fun _ => eq_refl) H2)
    as [_ [m1 [w1 [Hrun [_ [Hp [Hm [_ [_ [_ [m2 [w2 [Hrun2 [_ [_ [_ [Hch Hids]]]]]]]]]]]]]]]]].
  exists m1, w1. split; [exact Hrun|]. split; [exact Hp|]. split; [exact Hm|].
  exists m2, w2. split; [exact Hrun2|]. split; [exact Hch | exact Hids].
Defined.

End ScenarioRuns.

(* ================================================================== *)
(** ** What the store operations leave alone *)
(* ================================================================== *)

Lemma lookup_append j fs fresh f :
  lookupFeature j fs = Some f -> lookupFeature j (fs ++ fresh) = Some f.
Proof.
  unfold lookupFeature. induction fs as [|x xs IH]; simpl; intros H.
  - discriminate.
  - destruct (Nat.eqb (fid x) j); [exact H | apply IH; exact H].
Qed.

Lemma lookup_replaceGeometry_other i j g fs :
  i <> j -> lookupFeature j (replaceGeometry i g fs) = lookupFeature j fs.
Proof.
  intros Hne. induction fs as [|x xs IH]; simpl; [reflexivity|].
  destruct (Nat.eqb (fid x) i) eqn:Ei; simpl.
  - apply Nat.eqb_eq in Ei.
    destruct (Nat.eqb (fid x) j) eqn:Ej; [|exact IH].
    apply Nat.eqb_eq in Ej. congruence.
  - destruct (Nat.eqb (fid x) j); [reflexivity | exact IH].
Qed.

Section StoreFrames.

Context {kernel : GeometryKernel}.

Lemma create_frame entries w :
  callbacks (snd (create entries w)) = callbacks w
  /\ (nextId w <= nextId (snd (create entries w)))%nat
  /\ (forall j f, lookupFeature j (features w) = Some f ->
                  lookupFeature j (features (snd (create entries w))) = Some f).
Proof.
  unfold create.
  destruct (forallb (fun e => validGeometry (fst e)) entries); simpl.
  - split; [reflexivity|]. split; [lia|].
    intros j f H. apply lookup_append. exact H.
  - split; [reflexivity|]. split; [lia|]. intros j f H. exact H.
Qed.

Lemma updateGeometry_frame id g w :
  callbacks (snd (updateGeometry [(id, g)] w)) = callbacks w
  /\ nextId (snd (updateGeometry [(id, g)] w)) = nextId w
  /\ (forall j f, id <> Some j ->
                  lookupFeature j (features w) = Some f ->
                  lookupFeature j (features (snd (updateGeometry [(id, g)] w)))
                  = Some f).
Proof.
  unfold updateGeometry. simpl.
  destruct (has id (features w)); simpl;
    [destruct (validGeometry g); simpl|];
    (split; [reflexivity|]); (split; [reflexivity|]);
    intros j f Hne H; try exact H.
  destruct id as [i|]; [|exact H].
  rewrite lookup_replaceGeometry_other by congruence. exact H.
Qed.

Lemma delete_frame id w :
  callbacks (snd (delete [id] w)) = callbacks w
  /\ nextId (snd (delete [id] w)) = nextId w
  /\ (forall j f, id <> Some j ->
                  lookupFeature j (features w) = Some f ->
                  lookupFeature j (features (snd (delete [id] w))) = Some f).
Proof.
  unfold delete. simpl.
  destruct (has id (features w)); simpl;
    (split; [reflexivity|]); (split; [reflexivity|]);
    intros j f Hne H; try exact H.
  destruct id as [i|]; simpl; [|exact H].
  rewrite lookup_removeFeature; [exact H|].
  apply Nat.eqb_neq. congruence.
Qed.

End StoreFrames.

(* ================================================================== *)
(** ** The circle mode, call by call *)
(* ================================================================== *)

Section CircleSteps.

Context {kernel : GeometryKernel}.
Import CircleMode.

(** The entry of the first click: the starting circle, owned by the
    circle mode. *)
Lemma onClick_unfold (m : TerraDrawCircleMode) w e :
  onClick e (m, w)
  = if clickCount m =? 0 then
      if storeDefined (base m) then
        match create [(circle (lng e, lat e) (1 # 100000),
                       [("mode", JStr "circle")])] w with
        | (Ok ids, w') =>
            (Ok tt,
             (mk (base m) (Some (lng e, lat e)) (clickCount m + 1)
                 (hd_error ids) (keyEvents_cancel m), w'))
        | (Throw err, w') =>
            (Throw err, (setCenter (Some (lng e, lat e)) m, w'))
        end
      else (Throw TypeError, (setCenter (Some (lng e, lat e)) m, w))
    else (Ok tt, (mk (base m) None 0 None (keyEvents_cancel m), w)).
Proof.
  destruct m as [b c n i k].
  unfold onClick, bind, this, update, onStore. cbn -[create Z.eqb].
  destruct (n =? 0); [|reflexivity]. cbn -[create].
  destruct (storeDefined b); [|reflexivity].
  destruct (create _ w) as [[ids|err] w']; reflexivity.
Qed.

Lemma cleanUp_unfold (m : TerraDrawCircleMode) w :
  cleanUp (m, w)
  = (Ok tt,
     (mk (base m) None 0 None (keyEvents_cancel m),
      if storeDefined (base m)
      then snd (delete [currentCircleId m] w) else w)).
Proof.
  destruct m as [b c n i k].
  unfold cleanUp, bind, tryCatch, this, update, onStore, ret. cbn -[delete].
  destruct (storeDefined b); [|reflexivity].
  destruct (delete [i] w) as [[[]|err] w']; reflexivity.
Qed.

Lemma onKeyPress_unfold (m : TerraDrawCircleMode) w k :
  onKeyPress k (m, w)
  = if String.eqb (key k) (keyEvents_cancel m)
    then cleanUp (m, w) else (Ok tt, (m, w)).
Proof.
  unfold onKeyPress, bind, this. cbn [fst snd].
  destruct (String.eqb (key k) (keyEvents_cancel m)); reflexivity.
Qed.

Lemma start_unfold (m : TerraDrawCircleMode) w :
  start (m, w)
  = if String.eqb (_state (base m)) "unregistered"
    then (Throw NotRegistered, (m, w))
    else if storeDefined (base m)
         then (Ok tt, (setBase (mkBase "started" (storeDefined (base m))) m,
                       writeCursor "crosshair" w))
         else (Throw TypeError,
               (setBase (mkBase "started" (storeDefined (base m))) m, w)).
Proof.
  unfold start, bind, onBase, setStarted, setCursor. cbn [fst snd].
  destruct (String.eqb (_state (base m)) "unregistered"); cbn [fst snd].
  - destruct m; reflexivity.
  - destruct (storeDefined (base m)) eqn:E; cbn [fst snd base setBase storeDefined];
      reflexivity.
Qed.

Lemma stop_unfold (m : TerraDrawCircleMode) w :
  stop (m, w)
  = if String.eqb (_state (base m)) "unregistered"
    then (Throw NotRegistered, (m, w))
    else if storeDefined (base m)
         then cleanUp (setBase (mkBase "stopped" (storeDefined (base m))) m,
                       writeCursor "unset" w)
         else (Throw TypeError,
               (setBase (mkBase "stopped" (storeDefined (base m))) m, w)).
Proof.
  unfold stop, bind, onBase, setStopped, setCursor. cbn [fst snd].
  destruct (String.eqb (_state (base m)) "unregistered"); cbn [fst snd].
  - destruct m; reflexivity.
  - destruct (storeDefined (base m)) eqn:E; cbn [fst snd base setBase storeDefined];
      [|reflexivity].
    destruct (cleanUp _) as [[[]|err] s']; reflexivity.
Qed.

Lemma register_unfold (m : TerraDrawCircleMode) w :
  register (m, w)
  = if String.eqb (_state (base m)) "unregistered"
    then (Ok tt, (setBase (mkBase "registered" true) m, w))
    else (Throw AlreadyRegistered, (m, w)).
Proof.
  unfold register, onBase, baseRegister. cbn [fst snd].
  destruct (String.eqb (_state (base m)) "unregistered"); [reflexivity|].
  destruct m; reflexivity.
Qed.

(** What one call leaves alone in the world: the callbacks, the id
    counter (which never goes back) and every feature but the draft. *)
Lemma cleanUp_frame (m : TerraDrawCircleMode) w :
  callbacks (snd (snd (cleanUp (m, w)))) = callbacks w
  /\ nextId (snd (snd (cleanUp (m, w)))) = nextId w
  /\ (forall j f, currentCircleId m <> Some j ->
                  lookupFeature j (features w) = Some f ->
                  lookupFeature j (features (snd (snd (cleanUp (m, w))))) = Some f).
Proof.
  rewrite cleanUp_unfold. cbn [snd].
  destruct (storeDefined (base m)).
  - apply delete_frame.
  - repeat split. intros j f _ H. exact H.
Qed.

Lemma circle_step_frame (c : Method) (m : TerraDrawCircleMode) w :
  callbacks (snd (snd (invoke c (m, w)))) = callbacks w
  /\ (nextId w <= nextId (snd (snd (invoke c (m, w)))))%nat
  /\ (forall j f, currentCircleId m <> Some j ->
                  lookupFeature j (features w) = Some f ->
                  lookupFeature j (features (snd (snd (invoke c (m, w))))) = Some f).
Proof.
  assert (Hid : callbacks w = callbacks w
                /\ (nextId w <= nextId w)%nat
                /\ (forall j f, currentCircleId m <> Some j ->
                                lookupFeature j (features w) = Some f ->
                                lookupFeature j (features w) = Some f))
    by (split; [reflexivity|]; split; [lia|]; intros j f _ H; exact H).
  destruct c; cbn [invoke].
  - rewrite register_unfold.
    destruct (String.eqb (_state (base m)) "unregistered"); exact Hid.
  - rewrite start_unfold.
    destruct (String.eqb (_state (base m)) "unregistered"); [exact Hid|].
    destruct (storeDefined (base m)); exact Hid.
  - rewrite stop_unfold.
    destruct (String.eqb (_state (base m)) "unregistered"); [exact Hid|].
    destruct (storeDefined (base m)); [|exact Hid].
    match goal with
    | |- context [cleanUp (?mm, ?ww)] =>
        destruct (cleanUp_frame mm ww) as [Hc [Hn Hf]]
    end.
    split; [exact Hc|]. split; [rewrite Hn; cbn; lia|]. exact Hf.
  - exact Hid.
  - rewrite onClick_unfold.
    destruct (clickCount m =? 0); [|exact Hid].
    destruct (storeDefined (base m)); [|exact Hid].
    match goal with
    | |- context [create ?es w] =>
        destruct (create_frame es w) as [Hc [Hn Hf]];
        destruct (create es w) as [[ids|err] w']
    end; cbn [snd] in *;
      (split; [exact Hc|]); (split; [exact Hn|]);
      intros j f _ H; apply Hf; exact H.
  - rewrite onMouseMove_unfold.
    destruct (clickCount m =? 1); [|exact Hid].
    destruct (center m) as [c|]; [|exact Hid].
    destruct (storeDefined (base m)); [|exact Hid].
    cbn [snd].
    match goal with
    | |- context [updateGeometry [(?i, ?g)] w] =>
        destruct (updateGeometry_frame i g w) as [Hc [Hn Hf]]
    end.
    split; [exact Hc|]. split; [rewrite Hn; lia|]. exact Hf.
  - rewrite onKeyPress_unfold.
    destruct (String.eqb (key event) (keyEvents_cancel m)); [|exact Hid].
    destruct (cleanUp_frame m w) as [Hc [Hn Hf]].
    split; [exact Hc|]. split; [rewrite Hn; lia|]. exact Hf.
  - exact Hid.
  - exact Hid.
  - exact Hid.
  - destruct (cleanUp_frame m w) as [Hc [Hn Hf]].
    split; [exact Hc|]. split; [rewrite Hn; lia|]. exact Hf.
Qed.

(** The draft after a call is the draft before it or a feature created
    by the call. *)
Lemma circle_step_draft (c : Method) (m : TerraDrawCircleMode) w i :
  currentCircleId (fst (snd (invoke c (m, w)))) = Some i ->
  currentCircleId m = Some i \/ (nextId w <= i)%nat.
Proof.
  destruct c; cbn [invoke].
  - rewrite register_unfold.
    destruct (String.eqb (_state (base m)) "unregistered"); cbn; auto.
  - rewrite start_unfold.
    destruct (String.eqb (_state (base m)) "unregistered"); [cbn; auto|].
    destruct (storeDefined (base m)); cbn; auto.
  - rewrite stop_unfold.
    destruct (String.eqb (_state (base m)) "unregistered"); [cbn; auto|].
    destruct (storeDefined (base m)); [|cbn; auto].
    rewrite cleanUp_unfold. cbn. discriminate.
  - cbn. destruct m; cbn; auto.
  - rewrite onClick_unfold.
    destruct (clickCount m =? 0); [|cbn; discriminate].
    destruct (storeDefined (base m)); [|cbn; auto].
    unfold create. cbn.
    destruct (validGeometry _); cbn.
    + intros H. inversion H. right. lia.
    + auto.
  - rewrite onMouseMove_unfold.
    destruct (clickCount m =? 1); [|cbn; auto].
    destruct (center m) as [cc|]; [|cbn; auto].
    destruct (storeDefined (base m)); cbn; auto.
  - rewrite onKeyPress_unfold.
    destruct (String.eqb (key event) (keyEvents_cancel m)); [|cbn; auto].
    rewrite cleanUp_unfold. cbn. discriminate.
  - cbn; auto.
  - cbn; auto.
  - cbn; auto.
  - rewrite cleanUp_unfold. cbn. discriminate.
Qed.

Lemma circle_step_consistent (c : Method) (m : TerraDrawCircleMode) w :
  circleConsistent m -> circleConsistent (fst (snd (invoke c (m, w)))).
Proof.
  assert (Hidle : forall b k, circleConsistent (mk b None 0 None k)).
  { intros b k. split; [left; reflexivity|]. cbn. intros H; discriminate. }
  intros Hcons. pose proof Hcons as [Hrange Hdraft].
  destruct c; cbn [invoke].
  - rewrite register_unfold.
    destruct (String.eqb (_state (base m)) "unregistered");
      [|(cbn [fst snd]; exact Hcons)].
    split; [exact Hrange|]. cbn. intros H.
    destruct (Hdraft H) as [Hc [Hi _]]. auto.
  - rewrite start_unfold.
    destruct (String.eqb (_state (base m)) "unregistered"); [(cbn [fst snd]; exact Hcons)|].
    destruct (storeDefined (base m)) eqn:E; cbn [fst snd];
      (split; [exact Hrange|]); cbn; intros H;
      destruct (Hdraft H) as [Hc [Hi Hs]]; auto.
  - rewrite stop_unfold.
    destruct (String.eqb (_state (base m)) "unregistered"); [(cbn [fst snd]; exact Hcons)|].
    destruct (storeDefined (base m)) eqn:E.
    + rewrite cleanUp_unfold. apply Hidle.
    + cbn [fst snd]. split; [exact Hrange|]. cbn. intros H.
      destruct (Hdraft H) as [_ [_ Hs]]. discriminate.
  - cbn. destruct m; (cbn [fst snd]; exact Hcons).
  - rewrite onClick_unfold.
    destruct (clickCount m =? 0) eqn:En; [|apply Hidle].
    apply Z.eqb_eq in En.
    destruct (storeDefined (base m)) eqn:E.
    + unfold create. cbn.
      destruct (validGeometry _); cbn.
      * split; [right; cbn; lia|]. cbn. intros _.
        repeat split; try discriminate. exact E.
      * split; [left; exact En|]. cbn. intros H. lia.
    + cbn. split; [left; exact En|]. cbn. intros H. lia.
  - rewrite onMouseMove_unfold.
    destruct (clickCount m =? 1); [|(cbn [fst snd]; exact Hcons)].
    destruct (center m) as [cc|]; [|(cbn [fst snd]; exact Hcons)].
    destruct (storeDefined (base m)); (cbn [fst snd]; exact Hcons).
  - rewrite onKeyPress_unfold.
    destruct (String.eqb (key event) (keyEvents_cancel m)); [|(cbn [fst snd]; exact Hcons)].
    rewrite cleanUp_unfold. apply Hidle.
  - (cbn [fst snd]; exact Hcons).
  - (cbn [fst snd]; exact Hcons).
  - (cbn [fst snd]; exact Hcons).
  - rewrite cleanUp_unfold. apply Hidle.
Qed.

End CircleSteps.

(* ================================================================== *)
(** ** More on the circle mode *)
(* ================================================================== *)

Lemma lookup_removeFeature_same i fs :
  lookupFeature i (removeFeature i fs) = None.
Proof.
  induction fs as [|x xs IH]; simpl; [reflexivity|].
  destruct (Nat.eqb (fid x) i) eqn:E; simpl; [exact IH|].
  rewrite E. exact IH.
Qed.

Lemma removeFeature_absent i fs :
  memberb i (map fid fs) = false -> removeFeature i fs = fs.
Proof.
  induction fs as [|x xs IH]; simpl; intros H; [reflexivity|].
  apply orb_false_iff in H. destruct H as [Hx Hrest].
  rewrite Nat.eqb_sym, Hx. simpl. rewrite IH by exact Hrest. reflexivity.
Qed.

Lemma counterAhead_fresh w :
  counterAhead w = true -> memberb (nextId w) (storeIds w) = false.
Proof.
  unfold counterAhead. intros H. apply memberb_false. intros Hin.
  rewrite forallb_forall in H. specialize (H _ Hin).
  apply Nat.ltb_lt in H. lia.
Qed.

Section CircleMore.

Context {kernel : GeometryKernel}.
Import CircleMode.


(** X2: when the store refuses the starting circle, the first click
    throws the store's error to the caller; the centre has already been
    recorded, but no draft is: the click count is still 0, the draft id is
    untouched, and the store holds what it held, with nothing notified. *)
Theorem circle_first_click_refused :
  forall (m : TerraDrawCircleMode) (w : World) (e : TerraDrawMouseEvent),
    clickCount m = 0 ->
    storeDefined (base m) = true ->
    validGeometry (circle (lng e, lat e) (1 # 100000)) = false ->
    exists w',
      onClick e (m, w)
      = (Throw InvalidGeometry,
         (mk (base m) (Some (lng e, lat e)) 0 (currentCircleId m)
             (keyEvents_cancel m), w'))
      /\ features w' = features w
      /\ nextId w' = nextId w
      /\ onChange w' = onChange w
      /\ callbacks w' = callbacks w.
Proof.
  intros m w e Hn Hreg Hvalid.
  rewrite onClick_unfold, Hn, Hreg. cbn [Z.eqb].
  unfold create. cbn [forallb fst andb]. rewrite Hvalid.
  cbn. eexists. split.
  - destruct m; cbn in *; subst; reflexivity.
  - repeat split.
Qed.

Lemma runCalls_circle_consistent calls (s : St) :
  circleConsistent (fst s) -> circleConsistent (fst (runCalls invoke calls s)).
Proof.
  revert s. induction calls as [|c rest IH]; intros [m w] H; simpl.
  - exact H.
  - apply IH. destruct (invoke c (m, w)) as [r [m' w']] eqn:E.
    pose proof (circle_step_consistent c m w H) as H'.
    rewrite E in H'. exact H'.
Qed.

(** X3: whatever calls are made on a fresh circle mode, its click count
    is 0 or 1, and when it is 1 the mode is registered and has a centre
    and a draft id; so a mouse-move never fails for want of a centre or of
    a store. *)
Theorem circle_mode_fields_consistent :
  forall (cancel : option string) (w : World) (calls : list Method)
         (e : TerraDrawMouseEvent),
    circleConsistent (fst (runCalls invoke calls (new cancel, w)))
    /\ fst (onMouseMove e (runCalls invoke calls (new cancel, w)))
       <> Throw TypeError.
Proof.
  intros cancel w calls e.
  assert (H : circleConsistent (fst (runCalls invoke calls (new cancel, w)))).
  { apply runCalls_circle_consistent. split; [left; reflexivity|].
    cbn. intros H; discriminate. }
  split; [exact H|].
  destruct (runCalls invoke calls (new cancel, w)) as [m w1].
  cbn [fst] in H. destruct H as [_ Hdraft].
  rewrite onMouseMove_unfold.
  destruct (clickCount m =? 1) eqn:En; [|discriminate].
  apply Z.eqb_eq in En. destruct (Hdraft En) as [Hc [_ Hreg]].
  destruct (center m) as [c|]; [|congruence].
  rewrite Hreg. cbn [fst].
  unfold updateGeometry. cbn.
  destruct (has (currentCircleId m) (features w1)); cbn; [|discriminate].
  destruct (validGeometry _); cbn; discriminate.
Qed.

(** X4: with a draft that is in the store, the cancel key deletes the
    draft and nothing else and returns the mode to Idle; one delete is
    notified.  Any other key does nothing.  The cancel key is the one
    given to the constructor, "Escape" when none is. *)
Theorem circle_cancel_key :
  (forall (m : TerraDrawCircleMode) (w : World) (k : TerraDrawKeyboardEvent)
          (id : FeatureId),
      storeDefined (base m) = true ->
      currentCircleId m = Some id ->
      has (Some id) (features w) = true ->
      key k = keyEvents_cancel m ->
      exists w',
        onKeyPress k (m, w)
        = (Ok tt, (mk (base m) None 0 None (keyEvents_cancel m), w'))
        /\ lookupFeature id (features w') = None
        /\ (forall j, j <> id ->
              lookupFeature j (features w') = lookupFeature j (features w))
        /\ onChange w' = onChange w ++ [([id], ChDelete)]
        /\ callbacks w' = callbacks w)
  /\ (forall (m : TerraDrawCircleMode) (w : World) (k : TerraDrawKeyboardEvent),
      key k <> keyEvents_cancel m ->
      onKeyPress k (m, w) = (Ok tt, (m, w)))
  /\ (forall k, keyEvents_cancel (new (Some k)) = k)
  /\ keyEvents_cancel (new None) = "Escape".
Proof.
  split; [|split; [|split; [reflexivity | reflexivity]]].
  - intros m w k id Hreg Hid Hhas Hkey.
    rewrite onKeyPress_unfold, Hkey, String.eqb_refl, cleanUp_unfold, Hreg, Hid.
    unfold delete. cbn [forallb andb spy features]. rewrite Hhas.
    cbn. eexists. split; [reflexivity|]. cbn.
    split; [apply lookup_removeFeature_same|].
    split; [|split; reflexivity].
    intros j Hj. apply lookup_removeFeature. apply Nat.eqb_neq. exact Hj.
  - intros m w k Hkey. rewrite onKeyPress_unfold.
    destruct (String.eqb (key k) (keyEvents_cancel m)) eqn:E; [|reflexivity].
    apply String.eqb_eq in E. contradiction.
Qed.

(** X5: a first click followed by the cancel key leaves the features of
    the store exactly as they were, when the id counter of the store is
    ahead of its ids: the draft is created and deleted again, which is
    what is notified. *)
Theorem circle_click_then_cancel :
  forall (m : TerraDrawCircleMode) (w : World) (e : TerraDrawMouseEvent)
         (k : TerraDrawKeyboardEvent),
    clickCount m = 0 ->
    storeDefined (base m) = true ->
    validGeometry (circle (lng e, lat e) (1 # 100000)) = true ->
    counterAhead w = true ->
    key k = keyEvents_cancel m ->
    exists w',
      runCalls invoke [OnClick e; OnKeyPress k] (m, w)
      = (mk (base m) None 0 None (keyEvents_cancel m), w')
      /\ features w' = features w
      /\ onChange w'
         = onChange w ++ [([nextId w], ChCreate); ([nextId w], ChDelete)]
      /\ callbacks w' = callbacks w.
Proof.
  intros m w e k Hn Hreg Hvalid Hfresh Hkey.
  assert (Hhas : has (Some (nextId w))
                   (features w
                      ++ [mkFeature (nextId w) (circle (lng e, lat e) (1 # 100000))
                                    [("mode", JStr "circle")]])
                 = true).
  { rewrite has_memberb, map_app, memberb_app. cbn.
    rewrite Nat.eqb_refl. apply orb_true_r. }
  cbn [runCalls invoke].
  rewrite onClick_unfold, Hn, Hreg. cbn [Z.eqb].
  unfold create. cbn [forallb fst andb]. rewrite Hvalid.
  cbn -[onKeyPress].
  rewrite onKeyPress_unfold. cbn [keyEvents_cancel].
  rewrite Hkey, String.eqb_refl, cleanUp_unfold.
  cbn [base currentCircleId keyEvents_cancel snd]. rewrite Hreg.
  unfold delete. cbn -[has removeFeature].
  rewrite Hhas. cbn -[removeFeature].
  eexists. split; [reflexivity|].
  cbn -[removeFeature].
  split; [|split].
  - unfold removeFeature. rewrite filter_app. cbn.
    rewrite Nat.eqb_refl. cbn. rewrite app_nil_r.
    apply (removeFeature_absent (nextId w) (features w)).
    apply counterAhead_fresh. exact Hfresh.
  - rewrite <- app_assoc. reflexivity.
  - reflexivity.
Qed.

End CircleMore.

Section DrawModesNever.

Context {kernel : GeometryKernel}.

Lemma point_step_callbacks (c : PointMode.Method) (m : PointMode.TerraDrawPointMode) w :
  callbacks (snd (snd (PointMode.invoke c (m, w)))) = callbacks w.
Proof.
  destruct c; cbn [PointMode.invoke]; try reflexivity.
  - unfold PointMode.register, onBase. cbn [fst snd].
    destruct (baseRegister (PointMode.base m)); reflexivity.
  - unfold PointMode.start, bind, onBase, setCursor. cbn [fst snd].
    destruct (setStarted (PointMode.base m)) as [[[]|err] b]; cbn; [|reflexivity].
    destruct (storeDefined b); reflexivity.
  - unfold PointMode.stop, PointMode.cleanUp, bind, onBase, setCursor, ret.
    cbn [fst snd].
    destruct (setStopped (PointMode.base m)) as [[[]|err] b]; cbn; [|reflexivity].
    destruct (storeDefined b); reflexivity.
  - destruct m as [[st [|]]];
      unfold PointMode.onClick, bind, this, onStore, throw, ret;
      cbn -[create]; [|reflexivity].
    match goal with
    | |- context [create ?es w] =>
        destruct (create_frame es w) as [Hc _];
        destruct (create es w) as [[ids|err] w']
    end; exact Hc.
Qed.

(** X6: the draw modes never call back: whatever calls are made on a
    circle mode or on a point mode, in whatever state, no onSelect,
    onDeselect or onFinish is emitted. *)
Theorem draw_modes_emit_no_callback :
  (forall (calls : list CircleMode.Method) (s : CircleMode.St),
      callbacks (snd (runCalls CircleMode.invoke calls s)) = callbacks (snd s))
  /\ (forall (calls : list PointMode.Method) (s : PointMode.St),
      callbacks (snd (runCalls PointMode.invoke calls s)) = callbacks (snd s)).
Proof.
  split.
  - intros calls. induction calls as [|c rest IH]; intros [m w]; simpl.
    + reflexivity.
    + rewrite IH. destruct (circle_step_frame c m w) as [Hc _].
      destruct (CircleMode.invoke c (m, w)) as [r [m' w']]. exact Hc.
  - intros calls. induction calls as [|c rest IH]; intros [m w]; simpl.
    + reflexivity.
    + rewrite IH. pose proof (point_step_callbacks c m w) as Hc.
      destruct (PointMode.invoke c (m, w)) as [r [m' w']]. exact Hc.
Qed.

Lemma notTheDraft_step (c : CircleMode.Method) j f (s : CircleMode.St) :
  notTheDraft j f s -> notTheDraft j f (snd (CircleMode.invoke c s)).
Proof.
  destruct s as [m w]. intros [Hl [Hlt Hd]]. cbn [fst snd] in *.
  destruct (circle_step_frame c m w) as [_ [Hn Hf]].
  pose proof (circle_step_draft c m w j) as Hdraft.
  split; [apply Hf; assumption|]. split; [lia|].
  intros H. destruct (Hdraft H) as [H'|H']; [contradiction | lia].
Qed.

(** X7: the circle mode alters no feature but its draft: a feature that
    is in the store under an id below the store's id counter, and that is
    not the current draft, is still in the store, unchanged, after any
    sequence of calls.  This holds for the features drawn by others and
    for the circles the mode has finished. *)
Theorem circle_mode_alters_only_its_draft :
  forall (calls : list CircleMode.Method) (s : CircleMode.St)
         (j : FeatureId) (f : Feature),
    lookupFeature j (features (snd s)) = Some f ->
    (j < nextId (snd s))%nat ->
    CircleMode.currentCircleId (fst s) <> Some j ->
    lookupFeature j (features (snd (runCalls CircleMode.invoke calls s))) = Some f.
Proof.
  intros calls s j f Hl Hlt Hd.
  assert (H : notTheDraft j f (runCalls CircleMode.invoke calls s)).
  { assert (H0 : notTheDraft j f s) by (repeat split; assumption).
    clear Hl Hlt Hd. revert s H0.
    induction calls as [|c rest IH]; intros s H0; simpl; [exact H0|].
    apply IH. apply notTheDraft_step. exact H0. }
  destruct H as [H _]. exact H.
Qed.

(** X8: [stop] on a started mode discards the drawing in progress: it
    returns with the state "stopped" and the cursor "unset", the draft is
    deleted from the store (one delete notified, every other feature as
    it was) and the mode is Idle.  Without a draft it returns as well and
    the features of the store and the notifications are what they were. *)
Theorem circle_stop_discards_draft :
  (forall (m : CircleMode.TerraDrawCircleMode) (w : World) (id : FeatureId),
      _state (CircleMode.base m) = "started" ->
      storeDefined (CircleMode.base m) = true ->
      CircleMode.currentCircleId m = Some id ->
      has (Some id) (features w) = true ->
      exists w',
        CircleMode.stop (m, w)
        = (Ok tt, (CircleMode.mk (mkBase "stopped" true) None 0 None
                     (CircleMode.keyEvents_cancel m), w'))
        /\ cursor w' = "unset"
        /\ lookupFeature id (features w') = None
        /\ (forall j, j <> id ->
              lookupFeature j (features w') = lookupFeature j (features w))
        /\ onChange w' = onChange w ++ [([id], ChDelete)])
  /\ (forall (m : CircleMode.TerraDrawCircleMode) (w : World),
      _state (CircleMode.base m) = "started" ->
      storeDefined (CircleMode.base m) = true ->
      CircleMode.currentCircleId m = None ->
      exists w',
        CircleMode.stop (m, w)
        = (Ok tt, (CircleMode.mk (mkBase "stopped" true) None 0 None
                     (CircleMode.keyEvents_cancel m), w'))
        /\ cursor w' = "unset"
        /\ features w' = features w
        /\ onChange w' = onChange w).
Proof.
  split.
  - intros m w id Hstate Hreg Hid Hhas.
    rewrite stop_unfold, Hstate, Hreg, cleanUp_unfold.
    cbn [String.eqb Ascii.eqb Bool.eqb].
    cbn [CircleMode.base CircleMode.setBase CircleMode.currentCircleId
         CircleMode.keyEvents_cancel storeDefined].
    rewrite Hid. unfold delete. cbn -[has removeFeature].
    rewrite Hhas. cbn -[removeFeature].
    eexists. split; [reflexivity|]. cbn -[removeFeature].
    split; [reflexivity|].
    split; [apply lookup_removeFeature_same|].
    split; [|reflexivity].
    intros j Hj. apply lookup_removeFeature. apply Nat.eqb_neq. exact Hj.
  - intros m w Hstate Hreg Hid.
    rewrite stop_unfold, Hstate, Hreg, cleanUp_unfold.
    cbn [String.eqb Ascii.eqb Bool.eqb].
    cbn [CircleMode.base CircleMode.setBase CircleMode.currentCircleId
         CircleMode.keyEvents_cancel storeDefined].
    rewrite Hid. unfold delete. cbn.
    eexists. split; [reflexivity|]. cbn. repeat split.
Qed.

End DrawModesNever.

(* ================================================================== *)
(** ** The point mode *)
(* ================================================================== *)

Section PointMore.

Context {kernel : GeometryKernel}.
Import PointMode.




End PointMore.

(* ================================================================== *)
(** ** Styling of the point mode *)
(* ================================================================== *)

Section PointStyling.

Import PointStyle.

Lemma readKey_assignKey_same k v o : readKey k (assignKey k v o) = Some v.
Proof.
  induction o as [|[k' v'] rest IH]; simpl.
  - rewrite String.eqb_refl. reflexivity.
  - destruct (String.eqb k k') eqn:E; simpl.
    + rewrite String.eqb_refl. reflexivity.
    + rewrite E. exact IH.
Qed.

Lemma readKey_assignKey_other k k' v o :
  k <> k' -> readKey k' (assignKey k v o) = readKey k' o.
Proof.
  intros Hne. induction o as [|[k0 v0] rest IH]; simpl.
  - destruct (String.eqb k' k) eqn:E; [|reflexivity].
    apply String.eqb_eq in E. congruence.
  - destruct (String.eqb k k0) eqn:E; simpl.
    + apply String.eqb_eq in E. subst k0.
      destruct (String.eqb k' k) eqn:E'; [|reflexivity].
      apply String.eqb_eq in E'. congruence.
    + destruct (String.eqb k' k0); [reflexivity | exact IH].
Qed.

Lemma isOwnPoint_spec (feature : Feature) :
  isOwnPoint feature = true
  <-> (exists c, geometry feature = Point c)
      /\ getProp "mode" (properties feature) = Some (JStr "point").
Proof.
  unfold isOwnPoint. split.
  - destruct (geometry feature) as [c| |]; try discriminate.
    destruct (getProp "mode" (properties feature)) as [[md| | |]|];
      try discriminate.
    intros H. apply String.eqb_eq in H. subst md.
    split; [exists c|]; reflexivity.
  - intros [[c Hc] Hm]. rewrite Hc, Hm. reflexivity.
Qed.

(** X11: a feature whose geometry is not a Point, or whose mode property
    is not "point", is styled with the default styling as it is, whatever
    styles the mode was given; and a mode that was given no styles returns
    the default styling for every feature. *)
Theorem point_style_of_foreign_feature :
  (forall (defaultStyling : TerraDrawAdapterStyling) (styles : PointModeStyling)
          (feature : Feature),
      (forall c, geometry feature <> Point c)
      \/ getProp "mode" (properties feature) <> Some (JStr "point") ->
      styleFeature defaultStyling styles feature = defaultStyling)
  /\ (forall (defaultStyling : TerraDrawAdapterStyling) (feature : Feature),
        styleFeature defaultStyling (mkStyling None None None None) feature
        = defaultStyling).
Proof.
  split.
  - intros d st f H. unfold styleFeature.
    destruct (isOwnPoint f) eqn:E; [|reflexivity].
    apply isOwnPoint_spec in E. destruct E as [[c Hc] Hm].
    destruct H as [H|H]; [destruct (H c Hc) | contradiction].
  - intros d f. unfold styleFeature. cbn.
    destruct (isOwnPoint f); reflexivity.
Qed.

(** X12: for a Point owned by mode "point", each of pointColor,
    pointOutlineColor, pointOutlineWidth and pointWidth is the value the
    mode was given when that value is truthy, and the default otherwise:
    a width of 0 or an empty colour does not override the default.  Every
    other key keeps its default. *)
Theorem point_style_of_own_point :
  forall (defaultStyling : TerraDrawAdapterStyling) (styles : PointModeStyling)
         (feature : Feature) (c : Position),
    geometry feature = Point c ->
    getProp "mode" (properties feature) = Some (JStr "point") ->
    readKey "pointColor" (styleFeature defaultStyling styles feature)
    = match truthyString (pointColor styles) with
      | Some c => Some (Colour c)
      | None => readKey "pointColor" defaultStyling
      end
    /\ readKey "pointOutlineColor" (styleFeature defaultStyling styles feature)
       = match truthyString (pointOutlineColor styles) with
         | Some c => Some (Colour c)
         | None => readKey "pointOutlineColor" defaultStyling
         end
    /\ readKey "pointOutlineWidth" (styleFeature defaultStyling styles feature)
       = match truthyNumber (pointOutlineWidth styles) with
         | Some n => Some (Number n)
         | None => readKey "pointOutlineWidth" defaultStyling
         end
    /\ readKey "pointWidth" (styleFeature defaultStyling styles feature)
       = match truthyNumber (pointWidth styles) with
         | Some n => Some (Number n)
         | None => readKey "pointWidth" defaultStyling
         end
    /\ (forall k,
          ~ In k ["pointColor"; "pointOutlineColor"; "pointOutlineWidth"; "pointWidth"] ->
          readKey k (styleFeature defaultStyling styles feature)
          = readKey k defaultStyling)
    /\ (forall q, pointWidth styles = Some q -> (q == 0)%Q ->
          readKey "pointWidth" (styleFeature defaultStyling styles feature)
          = readKey "pointWidth" defaultStyling).
Proof.
  intros d st f c Hgeo Hmode.
  assert (Hown : isOwnPoint f = true)
    by (apply isOwnPoint_spec; split; [exists c|]; assumption).
  unfold styleFeature. rewrite Hown.
  assert (Hw : forall q, pointWidth st = Some q -> (q == 0)%Q ->
                         truthyNumber (pointWidth st) = None).
  { intros q Hq H0. rewrite Hq. unfold truthyNumber.
    apply Qeq_bool_iff in H0. rewrite H0. reflexivity. }
  repeat split.
  - destruct (truthyString (pointColor st)), (truthyString (pointOutlineColor st)),
      (truthyNumber (pointOutlineWidth st)), (truthyNumber (pointWidth st));
      repeat (rewrite readKey_assignKey_other by discriminate);
      try rewrite readKey_assignKey_same; reflexivity.
  - destruct (truthyString (pointColor st)), (truthyString (pointOutlineColor st)),
      (truthyNumber (pointOutlineWidth st)), (truthyNumber (pointWidth st));
      repeat (rewrite readKey_assignKey_other by discriminate);
      try rewrite readKey_assignKey_same;
      repeat (rewrite readKey_assignKey_other by discriminate); reflexivity.
  - destruct (truthyString (pointColor st)), (truthyString (pointOutlineColor st)),
      (truthyNumber (pointOutlineWidth st)), (truthyNumber (pointWidth st));
      repeat (rewrite readKey_assignKey_other by discriminate);
      try rewrite readKey_assignKey_same;
      repeat (rewrite readKey_assignKey_other by discriminate); reflexivity.
  - destruct (truthyString (pointColor st)), (truthyString (pointOutlineColor st)),
      (truthyNumber (pointOutlineWidth st)), (truthyNumber (pointWidth st));
      try rewrite readKey_assignKey_same;
      repeat (rewrite readKey_assignKey_other by discriminate); reflexivity.
  - intros k Hk.
    assert (H1 : "pointColor" <> k) by (intros E; apply Hk; subst; simpl; auto).
    assert (H2 : "pointOutlineColor" <> k) by (intros E; apply Hk; subst; simpl; auto).
    assert (H3 : "pointOutlineWidth" <> k) by (intros E; apply Hk; subst; simpl; auto).
    assert (H4 : "pointWidth" <> k) by (intros E; apply Hk; subst; simpl; auto).
    destruct (truthyString (pointColor st)), (truthyString (pointOutlineColor st)),
      (truthyNumber (pointOutlineWidth st)), (truthyNumber (pointWidth st));
      repeat (rewrite readKey_assignKey_other by assumption); reflexivity.
  - intros q Hq H0. rewrite (Hw q Hq H0).
    destruct (truthyString (pointColor st)), (truthyString (pointOutlineColor st)),
      (truthyNumber (pointOutlineWidth st));
      repeat (rewrite readKey_assignKey_other by discriminate); reflexivity.
Qed.

End PointStyling.

Section DrawModesEdges.

Context {kernel : GeometryKernel}.

(** X13: a mouse-move does not catch the store's error.  With a draft in
    progress, when the draft is no longer in the store, or the store
    refuses the resized circle, the call throws UnknownId, respectively
    InvalidGeometry, to the caller; the mode keeps its draft and the
    features of the store, the notifications and the callbacks are what
    they were. *)
Theorem circle_mouse_move_failure_propagates :
  forall (m : CircleMode.TerraDrawCircleMode) (w : World)
         (e : TerraDrawMouseEvent) (c : Position) (id : FeatureId),
    CircleMode.clickCount m = 1 ->
    CircleMode.center m = Some c ->
    CircleMode.currentCircleId m = Some id ->
    storeDefined (CircleMode.base m) = true ->
    has (Some id) (features w) = false
    \/ validGeometry (circle c (haversineDistanceKilometers c (lng e, lat e)))
       = false ->
    exists w',
      CircleMode.onMouseMove e (m, w)
      = (Throw (if has (Some id) (features w) then InvalidGeometry else UnknownId),
         (m, w'))
      /\ features w' = features w
      /\ onChange w' = onChange w
      /\ callbacks w' = callbacks w.
Proof.
  intros m w e c id Hn Hc Hid Hreg Hbad.
  rewrite onMouseMove_unfold, Hn, Hc, Hreg, Hid. cbn [Z.eqb Pos.eqb].
  unfold updateGeometry. cbn -[has].
  destruct (has (Some id) (features w)) eqn:Hhas; cbn -[has].
  - destruct Hbad as [Hbad|Hbad]; [discriminate|].
    rewrite Hbad. cbn. eexists. split; [reflexivity|]. repeat split.
  - eexists. split; [reflexivity|]. repeat split.
Qed.

(** X14: [start] does not reset a drawing.  On a mode that is registered
    or stopped it returns with the state "started" and the cursor
    "crosshair"; the centre, the click count and the draft id of a circle
    mode are kept, and the features of the store and the notifications
    are untouched.  The same holds for the point mode, which has no
    drawing state. *)
Theorem draw_modes_start :
  (forall (m : CircleMode.TerraDrawCircleMode) (w : World),
      _state (CircleMode.base m) = "registered"
      \/ _state (CircleMode.base m) = "stopped" ->
      storeDefined (CircleMode.base m) = true ->
      exists w',
        CircleMode.start (m, w)
        = (Ok tt, (CircleMode.mk (mkBase "started" true) (CircleMode.center m)
                     (CircleMode.clickCount m) (CircleMode.currentCircleId m)
                     (CircleMode.keyEvents_cancel m), w'))
        /\ cursor w' = "crosshair"
        /\ features w' = features w
        /\ onChange w' = onChange w
        /\ callbacks w' = callbacks w)
  /\ (forall (m : PointMode.TerraDrawPointMode) (w : World),
      _state (PointMode.base m) = "registered"
      \/ _state (PointMode.base m) = "stopped" ->
      storeDefined (PointMode.base m) = true ->
      exists w',
        PointMode.start (m, w)
        = (Ok tt, (PointMode.mk (mkBase "started" true), w'))
        /\ cursor w' = "crosshair"
        /\ features w' = features w
        /\ onChange w' = onChange w
        /\ callbacks w' = callbacks w).
Proof.
  split.
  - intros m w Hstate Hreg.
    assert (Hne : String.eqb (_state (CircleMode.base m)) "unregistered" = false)
      by (destruct Hstate as [H|H]; rewrite H; reflexivity).
    rewrite start_unfold, Hne, Hreg.
    eexists. split; [reflexivity|]. repeat split.
  - intros [[st sd]] w Hstate Hreg. cbn in Hstate, Hreg. subst sd.
    assert (Hne : String.eqb st "unregistered" = false)
      by (destruct Hstate as [H|H]; rewrite H; reflexivity).
    unfold PointMode.start, bind, onBase, setStarted, setCursor.
    cbn [fst snd PointMode.base _state storeDefined]. rewrite Hne.
    cbn. eexists. split; [reflexivity|]. repeat split.
Qed.

End DrawModesEdges.

(* ================================================================== *)
(** ** The draw-mode statements on the scenarios *)
(* ================================================================== *)

Section DrawModeRuns.

Import PlanarKernel Scenarios.


Lemma circle_first_click_refused_witness :
  validGeometry (GeometryKernel := RejectingKernel.kernel)
    (circle (GeometryKernel := RejectingKernel.kernel) (0%Q, 0%Q) (1 # 100000))
  = false
  /\ exists w',
      CircleMode.onClick (kernel := RejectingKernel.kernel)
        (cursorAt 0 0 LeftButton)
        (CircleMode.mk (mkBase "registered" true) None 0 None "Escape", emptyWorld)
      = (Throw InvalidGeometry,
         (CircleMode.mk (mkBase "registered" true) (Some (0%Q, 0%Q)) 0 None "Escape",
          w'))
      /\ features w' = []
      /\ onChange w' = [].
Proof.
  assert (H3 : validGeometry (GeometryKernel := RejectingKernel.kernel)
                 (circle (GeometryKernel := RejectingKernel.kernel)
                    (lng (cursorAt 0 0 LeftButton), lat (cursorAt 0 0 LeftButton))
                    (1 # 100000)) = false)
    by reflexivity.
  split; [exact H3|].
  destruct (circle_first_click_refused (kernel := RejectingKernel.kernel)
              (CircleMode.mk (mkBase "registered" true) None 0 None "Escape")
              emptyWorld (cursorAt 0 0 LeftButton) eq_refl eq_refl H3)
    as [w' [Hrun [Hf [_ [Hch _]]]]].
  exists w'. split; [exact Hrun|]. split; [exact Hf | exact Hch].
Defined.

Lemma circle_cancel_key_witness :
  storeDefined (CircleMode.base (fst circleSized)) = true
  /\ CircleMode.currentCircleId (fst circleSized) = Some 0%nat
  /\ has (Some 0%nat) (features (snd circleSized)) = true
  /\ key (mkKeyboardEvent "Escape") = CircleMode.keyEvents_cancel (fst circleSized)
  /\ exists w',
      CircleMode.onKeyPress (mkKeyboardEvent "Escape")
        (fst circleSized, snd circleSized)
      = (Ok tt,
         (CircleMode.mk (CircleMode.base (fst circleSized)) None 0 None
            (CircleMode.keyEvents_cancel (fst circleSized)), w'))
      /\ lookupFeature 0%nat (features w') = None
      /\ onChange w' = onChange (snd circleSized) ++ [([0%nat], ChDelete)].
Proof.
  assert (H1 : storeDefined (CircleMode.base (fst circleSized)) = true)
    by (vm_compute; reflexivity).
  assert (H2 : CircleMode.currentCircleId (fst circleSized) = Some 0%nat)
    by (vm_compute; reflexivity).
  assert (H3 : has (Some 0%nat) (features (snd circleSized)) = true)
    by (vm_compute; reflexivity).
  assert (H4 : key (mkKeyboardEvent "Escape")
               = CircleMode.keyEvents_cancel (fst circleSized))
    by (vm_compute; reflexivity).
  split; [exact H1|]. split; [exact H2|]. split; [exact H3|]. split; [exact H4|].
  destruct (proj1 circle_cancel_key (fst circleSized) (snd circleSized)
              (mkKeyboardEvent "Escape") 0%nat H1 H2 H3 H4)
    as [w' [Hrun [Hgone [_ [Hch _]]]]].
  exists w'. split; [exact Hrun|]. split; [exact Hgone | exact Hch].
Defined.

Lemma circle_click_then_cancel_witness :
  counterAhead twoSquares = true
  /\ validGeometry (circle (5%Q, 5%Q) (1 # 100000)) = true
  /\ exists w',
      runCalls CircleMode.invoke
        [CircleMode.OnClick (cursorAt 5 5 LeftButton);
         CircleMode.OnKeyPress (mkKeyboardEvent "Escape")]
        (CircleMode.mk (mkBase "registered" true) None 0 None "Escape", twoSquares)
      = (CircleMode.mk (mkBase "registered" true) None 0 None "Escape", w')
      /\ features w' = features twoSquares
      /\ onChange w'
         = onChange twoSquares
             ++ [([nextId twoSquares], ChCreate); ([nextId twoSquares], ChDelete)].
Proof.
  assert (H4 : counterAhead twoSquares = true) by (vm_compute; reflexivity).
  assert (H3 : validGeometry
                 (circle (lng (cursorAt 5 5 LeftButton), lat (cursorAt 5 5 LeftButton))
                    (1 # 100000)) = true)
    by reflexivity.
  split; [exact H4|]. split; [exact H3|].
  destruct (circle_click_then_cancel
              (CircleMode.mk (mkBase "registered" true) None 0 None "Escape")
              twoSquares (cursorAt 5 5 LeftButton) (mkKeyboardEvent "Escape")
              eq_refl eq_refl H3 H4 eq_refl)
    as [w' [Hrun [Hf [Hch _]]]].
  exists w'. split; [exact Hrun|]. split; [exact Hf | exact Hch].
Defined.

Lemma circle_mode_alters_only_its_draft_witness :
  exists f,
    lookupFeature 0%nat (features (snd circleFinished)) = Some f
    /\ (0 < nextId (snd circleFinished))%nat
    /\ CircleMode.currentCircleId (fst circleFinished) <> Some 0%nat
    /\ lookupFeature 0%nat
         (features
            (snd (runCalls CircleMode.invoke
                    [CircleMode.OnClick (cursorAt 2 2 LeftButton);
                     CircleMode.OnMouseMove (cursorAt 3 3 LeftButton);
                     CircleMode.OnKeyPress (mkKeyboardEvent "Escape");
                     CircleMode.Stop]
                    circleFinished)))
       = Some f.
Proof.
  eexists.
  assert (H1 : lookupFeature 0%nat (features (snd circleFinished)) = Some _)
    by (vm_compute; reflexivity).
  assert (H2 : (0 < nextId (snd circleFinished))%nat) by (vm_compute; lia).
  assert (H3 : CircleMode.currentCircleId (fst circleFinished) <> Some 0%nat)
    by (vm_compute; discriminate).
  split; [exact H1|]. split; [exact H2|]. split; [exact H3|].
  exact (circle_mode_alters_only_its_draft
           [CircleMode.OnClick (cursorAt 2 2 LeftButton);
            CircleMode.OnMouseMove (cursorAt 3 3 LeftButton);
            CircleMode.OnKeyPress (mkKeyboardEvent "Escape");
            CircleMode.Stop]
           circleFinished 0%nat _ H1 H2 H3).
Defined.

Lemma circle_stop_discards_draft_witness :
  _state (CircleMode.base (fst circleStartedSized)) = "started"
  /\ storeDefined (CircleMode.base (fst circleStartedSized)) = true
  /\ CircleMode.currentCircleId (fst circleStartedSized) = Some 0%nat
  /\ has (Some 0%nat) (features (snd circleStartedSized)) = true
  /\ exists w',
      CircleMode.stop (fst circleStartedSized, snd circleStartedSized)
      = (Ok tt,
         (CircleMode.mk (mkBase "stopped" true) None 0 None
            (CircleMode.keyEvents_cancel (fst circleStartedSized)), w'))
      /\ cursor w' = "unset"
      /\ lookupFeature 0%nat (features w') = None.
Proof.
  assert (H0 : _state (CircleMode.base (fst circleStartedSized)) = "started")
    by (vm_compute; reflexivity).
  assert (H1 : storeDefined (CircleMode.base (fst circleStartedSized)) = true)
    by (vm_compute; reflexivity).
  assert (H2 : CircleMode.currentCircleId (fst circleStartedSized) = Some 0%nat)
    by (vm_compute; reflexivity).
  assert (H3 : has (Some 0%nat) (features (snd circleStartedSized)) = true)
    by (vm_compute; reflexivity).
  split; [exact H0|]. split; [exact H1|]. split; [exact H2|]. split; [exact H3|].
  destruct (proj1 circle_stop_discards_draft (fst circleStartedSized)
              (snd circleStartedSized) 0%nat H0 H1 H2 H3)
    as [w' [Hrun [Hcur [Hgone _]]]].
  exists w'. split; [exact Hrun|]. split; [exact Hcur | exact Hgone].
Defined.

Lemma circle_mouse_move_failure_witness :
  CircleMode.clickCount (fst circleDraft) = 1
  /\ CircleMode.center (fst circleDraft) = Some (0%Q, 0%Q)
  /\ CircleMode.currentCircleId (fst circleDraft) = Some 0%nat
  /\ storeDefined (CircleMode.base (fst circleDraft)) = true
  /\ has (Some 0%nat) (features emptyWorld) = false
  /\ exists w',
      CircleMode.onMouseMove (cursorAt 1 1 LeftButton) (fst circleDraft, emptyWorld)
      = (Throw UnknownId, (fst circleDraft, w'))
      /\ features w' = []
      /\ onChange w' = [].
Proof.
  assert (H0 : CircleMode.clickCount (fst circleDraft) = 1)
    by (vm_compute; reflexivity).
  assert (H1 : CircleMode.center (fst circleDraft) = Some (0%Q, 0%Q))
    by (vm_compute; reflexivity).
  assert (H2 : CircleMode.currentCircleId (fst circleDraft) = Some 0%nat)
    by (vm_compute; reflexivity).
  assert (H3 : storeDefined (CircleMode.base (fst circleDraft)) = true)
    by (vm_compute; reflexivity).
  assert (H4 : has (Some 0%nat) (features emptyWorld) = false) by reflexivity.
  split; [exact H0|]. split; [exact H1|]. split; [exact H2|]. split; [exact H3|].
  split; [exact H4|].
  destruct (circle_mouse_move_failure_propagates (fst circleDraft) emptyWorld
              (cursorAt 1 1 LeftButton) (0%Q, 0%Q) 0%nat H0 H1 H2 H3 (or_introl H4))
    as [w' [Hrun [Hf [Hch _]]]].
  exists w'. split; [exact Hrun|]. split; [exact Hf | exact Hch].
Defined.



Lemma point_style_of_foreign_feature_witness :
  getProp "mode" (properties selectedPolygonFeature) <> Some (JStr "point")
  /\ PointStyle.styleFeature
       [("pointColor", PointStyle.Colour "#3f97e0");
        ("pointWidth", PointStyle.Number 6%Q)]
       (PointStyle.mkStyling (Some 2%Q) (Some "#ffffff") None None)
       selectedPolygonFeature
     = [("pointColor", PointStyle.Colour "#3f97e0");
        ("pointWidth", PointStyle.Number 6%Q)].
Proof.
  assert (H : getProp "mode" (properties selectedPolygonFeature)
              <> Some (JStr "point"))
    by (vm_compute; discriminate).
  split; [exact H|].
  exact (proj1 point_style_of_foreign_feature
           [("pointColor", PointStyle.Colour "#3f97e0");
            ("pointWidth", PointStyle.Number 6%Q)]
           (PointStyle.mkStyling (Some 2%Q) (Some "#ffffff") None None)
           selectedPolygonFeature (or_intror H)).
Defined.

Lemma point_style_of_own_point_witness :
  PointStyle.readKey "pointColor"
    (PointStyle.styleFeature
       [("pointColor", PointStyle.Colour "#3f97e0");
        ("pointWidth", PointStyle.Number 6%Q)]
       (PointStyle.mkStyling (Some 0%Q) (Some "#ffffff") None None)
       (mkFeature 0%nat (Point (0%Q, 0%Q)) [("mode", JStr "point")]))
  = Some (PointStyle.Colour "#ffffff")
  /\ PointStyle.readKey "pointWidth"
       (PointStyle.styleFeature
          [("pointColor", PointStyle.Colour "#3f97e0");
           ("pointWidth", PointStyle.Number 6%Q)]
          (PointStyle.mkStyling (Some 0%Q) (Some "#ffffff") None None)
          (mkFeature 0%nat (Point (0%Q, 0%Q)) [("mode", JStr "point")]))
     = Some (PointStyle.Number 6%Q).
Proof.
  destruct (point_style_of_own_point
              [("pointColor", PointStyle.Colour "#3f97e0");
               ("pointWidth", PointStyle.Number 6%Q)]
              (PointStyle.mkStyling (Some 0%Q) (Some "#ffffff") None None)
              (mkFeature 0%nat (Point (0%Q, 0%Q)) [("mode", JStr "point")])
              (0%Q, 0%Q) eq_refl eq_refl)
    as [Hc [_ [_ [Hw _]]]].
  split; [exact Hc | exact Hw].
Defined.

Lemma draw_modes_start_witness :
  _state (CircleMode.base (fst circleDraft)) = "registered"
  /\ storeDefined (CircleMode.base (fst circleDraft)) = true
  /\ exists w',
      CircleMode.start (fst circleDraft, snd circleDraft)
      = (Ok tt,
         (CircleMode.mk (mkBase "started" true) (Some (0%Q, 0%Q)) 1 (Some 0%nat)
            "Escape", w'))
      /\ cursor w' = "crosshair"
      /\ features w' = features (snd circleDraft).
Proof.
  assert (H0 : _state (CircleMode.base (fst circleDraft)) = "registered")
    by (vm_compute; reflexivity).
  assert (H1 : storeDefined (CircleMode.base (fst circleDraft)) = true)
    by (vm_compute; reflexivity).
  split; [exact H0|]. split; [exact H1|].
  destruct (proj1 draw_modes_start (fst circleDraft) (snd circleDraft)
              (or_introl H0) H1)
    as [w' [Hrun [Hcur [Hf _]]]].
  exists w'. split; [exact Hrun|]. split; [exact Hcur | exact Hf].
Defined.

End DrawModeRuns.
